(** * kokos: the text classifier of [TextAnalyst.py]

    A shallow embedding of the class [TextAnalyst] (taxonomy traversal,
    normalisation, fitting, classification) and of the tail of the HTTP
    handler [check_url] of [nApi.py].

    Conventions.
    - A Python [str] is a [string] (its UTF-8 bytes); [None] where the
      source can produce it is the [None] of an [option].
    - A [dict] read from JSON keeps insertion order: an association list.
    - The calls into NLTK, spaCy and scikit-learn, and the Unicode-aware
      [str] methods, are interfaces (type classes); every result below
      holds for all their implementations.  A small executable
      implementation ([Ref]) is used to run the code on concrete inputs.
    - A similarity is an IEEE double in the source.  [cosine_similarity]
      yields finite doubles, on which [>] is the order of the rationals
      they denote: a score is that rational, in [Q].
    - Methods run in a monad [M] that threads the object [self] (with the
      records written by its logger) and propagates exceptions. *)

From Stdlib Require Import String Ascii List Bool Arith QArith Lia.
Import ListNotations.
Local Open Scope string_scope.
Local Open Scope list_scope.

(** ** Exceptions and results *)

Inductive exn : Type :=
| ValueError (msg : string)
| AttributeError (msg : string)
| KeyError (key : string)
| TypeError (msg : string)
| NotFittedError (msg : string)
| FileNotFoundError (msg : string)
| JSONDecodeError (msg : string)
| LibraryError (msg : string).

Inductive res (A : Type) : Type :=
| Ok (a : A)
| Raise (e : exn).
Arguments Ok {A} a.
Arguments Raise {A} e.

Definition res_bind {A B : Type} (r : res A) (k : A -> res B) : res B :=
  match r with
  | Ok a => k a
  | Raise e => Raise e
  end.

(** Left-to-right traversal of a list by a call that may raise. *)
Fixpoint res_map {A B : Type} (f : A -> res B) (l : list A) : res (list B) :=
  match l with
  | [] => Ok []
  | a :: l' =>
      res_bind (f a) (fun b => res_bind (res_map f l') (fun bs => Ok (b :: bs)))
  end.

(** ** Data *)

(** [' '.join(l)] and friends. *)
Definition join (sep : string) (l : list string) : string := String.concat sep l.

(** A JSON object as Python reads it: an insertion-ordered [dict]. *)
Definition dict (V : Type) : Type := list (string * V).

Definition keys {V : Type} (d : dict V) : list string := map fst d.

(** [d[k]]: the value under [k], or [KeyError]. *)
Definition getitem {V : Type} (d : dict V) (k : string) : res V :=
  match find (fun kv => String.eqb (fst kv) k) d with
  | Some kv => Ok (snd kv)
  | None => Raise (KeyError k)
  end.

(** category -> theme -> phrases *)
Definition taxonomy : Type := dict (dict (list string)).

(** A [dict] has no repeated key. *)
Fixpoint distinct (l : list string) : bool :=
  match l with
  | [] => true
  | k :: l' => negb (existsb (String.eqb k) l') && distinct l'
  end.

Definition well_formed (d : taxonomy) : bool :=
  distinct (keys d) && forallb (fun ct => distinct (keys (snd ct))) d.

(** The (category, theme, phrases) triples in insertion order. *)
Definition pairs (d : taxonomy) : list (string * string * list string) :=
  flat_map (fun ct => map (fun tp => (fst ct, fst tp, snd tp)) (snd ct)) d.

(** All phrases, in insertion order. *)
Definition phrases (d : taxonomy) : list string :=
  flat_map (fun ctp => snd ctp) (pairs d).

(** A spaCy token, by the attributes [clean_text] reads. *)
Record Token : Type := {
  text : string;
  lemma_ : string;
  is_stop : bool;
  is_punct : bool
}.

(** The text [json.dumps(obj, ensure_ascii=...)] returns for a flat object
    with string values, named by the arguments of the call. *)
Inductive json_text : Type :=
| Dumps (ensure_ascii : bool) (obj : list (string * string)).

(** The body of the HTTP response: [json.dumps] of a [str]. *)
Inductive http_body : Type :=
| DumpsStr (ensure_ascii : bool) (report : json_text).

(** A record written by [logger.error]: the message prefix and the
    exception formatted into it. *)
Definition log_record : Type := (string * exn)%type.

(** [x > y] on scores. *)
Definition Qgtb (x y : Q) : bool :=
  match Qcompare y x with
  | Lt => true
  | _ => false
  end.

(** ** External interfaces *)

(** The [str] methods used on token text and lemmas. *)
Class PyStr : Type := {
  isnumeric : string -> bool;
  isalnum : string -> bool;
  lower : string -> string;
  strip : string -> string
}.

(** [nltk.tokenize.word_tokenize]. *)
Class Nltk : Type := {
  word_tokenize : string -> res (list string)
}.

(** The pipeline [ru_core_news_sm.load()] applied to a [str]. *)
Class Spacy : Type := {
  nlp : string -> res (list Token)
}.

(** [TfidfVectorizer] (fitted state [model], one row of the matrix
    [vector]) and [cosine_similarity(u, v)[0][0]]. *)
Class Sklearn : Type := {
  model : Type;
  vector : Type;
  fit_transform : list string -> res model;
  transform : model -> string -> res vector;
  cosine_similarity : vector -> vector -> res Q
}.

(** ** The class [TextAnalyst] *)

Section TextAnalystModel.

Context {STR : PyStr} {NLTK : Nltk} {SPACY : Spacy} {SK : Sklearn}.

(** The attributes of [self]: [vectorizer] is [None] until a fit succeeds
    ([TfidfVectorizer()] is created un-fitted); [data] is what [load_data]
    returned. *)
Record TextAnalyst : Type := {
  logger : list log_record;
  data : option taxonomy;
  categories : list string;
  vectorizer : option model
}.

(** A method body: reads and writes [self], returns or raises. *)
Definition M (A : Type) : Type := TextAnalyst -> res A * TextAnalyst.

Definition ret {A : Type} (a : A) : M A := fun self => (Ok a, self).

Definition raise {A : Type} (e : exn) : M A := fun self => (Raise e, self).

Definition bind {A B : Type} (c : M A) (k : A -> M B) : M B :=
  fun self =>
    match c self with
    | (Ok a, self') => k a self'
    | (Raise e, self') => (Raise e, self')
    end.

#[local] Notation "x <- c ;; k" := (bind c (fun x => k))
  (at level 61, c at next level, right associativity).
#[local] Notation "c ;;; k" := (bind c (fun _ => k))
  (at level 61, right associativity).

(** The outcome of a library call. *)
Definition call {A : Type} (r : res A) : M A := fun self => (r, self).

(** [try: body except Exception as e: handler(e)] *)
Definition try_except {A : Type} (body : M A) (handler : exn -> M A) : M A :=
  fun self =>
    match body self with
    | (Ok a, self') => (Ok a, self')
    | (Raise e, self') => handler e self'
    end.

(** [for x in l: s = body(x, s)], over the local variables [s]. *)
Fixpoint for_in {A S : Type} (l : list A) (body : A -> S -> M S) (s : S) : M S :=
  match l with
  | [] => ret s
  | x :: l' => s' <- body x s ;; for_in l' body s'
  end.

Definition gets {A : Type} (f : TextAnalyst -> A) : M A := fun self => (Ok (f self), self).

(** [self.__logger.error(f"{prefix}: {e}")] *)
Definition logger_error (prefix : string) (e : exn) : M unit :=
  fun self =>
    (Ok tt, {| logger := logger self ++ [(prefix, e)];
               data := data self;
               categories := categories self;
               vectorizer := vectorizer self |}).

Definition set_data (d : option taxonomy) : M unit :=
  fun self =>
    (Ok tt, {| logger := logger self; data := d;
               categories := categories self; vectorizer := vectorizer self |}).

Definition set_categories (c : list string) : M unit :=
  fun self =>
    (Ok tt, {| logger := logger self; data := data self;
               categories := c; vectorizer := vectorizer self |}).

Definition set_vectorizer (v : option model) : M unit :=
  fun self =>
    (Ok tt, {| logger := logger self; data := data self;
               categories := categories self; vectorizer := v |}).

(** [self.data[category]] *)
Definition data_getitem (category : string) : M (dict (list string)) :=
  d <- gets data ;;
  match d with
  | Some d => call (getitem d category)
  | None => raise (TypeError "'NoneType' object is not subscriptable")
  end.

(** [self.vectorizer.fit_transform(documents)]: the vectorizer becomes
    fitted when the call returns, and stays as it was when it raises. *)
Definition vectorizer_fit_transform (documents : list string) : M unit :=
  m <- call (fit_transform documents) ;;
  set_vectorizer (Some m).

(** [self.vectorizer.transform([doc])]: [check_is_fitted] comes first, then
    the document is lower-cased, which [None] does not support. *)
Definition vectorizer_transform (doc : option string) : M vector :=
  v <- gets vectorizer ;;
  match v with
  | None => raise (NotFittedError "The TF-IDF vectorizer is not fitted")
  | Some m =>
      match doc with
      | None => raise (AttributeError "'NoneType' object has no attribute 'lower'")
      | Some s => call (transform m s)
      end
  end.

(** [load_data]: [json_file] is the outcome of opening and parsing the file. *)
Definition load_data (json_file : res taxonomy) : M (option taxonomy) :=
  try_except
    (d <- call json_file ;; ret (Some d))
    (fun e =>
       match e with
       | FileNotFoundError _ => logger_error "Файл не найден" e
       | JSONDecodeError _ => logger_error "Ошибка при декодировании JSON" e
       | _ => logger_error "Произошла ошибка" e
       end ;;;
       ret None).

Definition prepare_data : M (option (list string)) :=
  try_except
    (cats <- gets categories ;;
     documents <-
       for_in cats (fun category documents =>
         themes <- data_getitem category ;;
         for_in (keys themes) (fun theme documents =>
           themes' <- data_getitem category ;;
           category_phrases <- call (getitem themes' theme) ;;
           for_in category_phrases (fun n_gram documents =>
             n_gram_tokens <- call (word_tokenize n_gram) ;;
             let n_gram_unigrams := join " " n_gram_tokens in
             ret (documents ++ [n_gram_unigrams]))
           documents)
         documents)
       [] ;;
     ret (Some documents))
    (fun e =>
       logger_error "Произошла ошибка при подготовке данных" e ;;;
       ret None).

(** [not documents] *)
Definition not_documents (documents : option (list string)) : bool :=
  match documents with
  | None | Some [] => true
  | Some (_ :: _) => false
  end.

Definition train_vectorizer (documents : option (list string)) : M unit :=
  try_except
    (if not_documents documents
     then raise (ValueError "Список униграмм пуст.")
     else
       match documents with
       | Some docs => vectorizer_fit_transform docs
       | None => ret tt
       end)
    (fun e => logger_error "Произошла ошибка при обучении векторизатора" e).

(** [not input_text] *)
Definition not_text (input_text : option string) : bool :=
  match input_text with
  | None | Some EmptyString => true
  | Some (String _ _) => false
  end.

Definition tokenize_text (input_text : option string) : M (option string) :=
  try_except
    (if not_text input_text
     then raise (ValueError "Входной текст пуст.")
     else
       match input_text with
       | Some s =>
           tokens <- call (word_tokenize s) ;;
           ret (Some (join " " tokens))
       | None => ret None
       end)
    (fun e =>
       logger_error "Произошла ошибка при токенизации текста" e ;;;
       ret None).

Definition exclusion_list : list string := ["nan"].

(** The condition of the [continue] in [clean_text]. *)
Definition skipped (token : Token) : bool :=
  is_stop token || is_punct token || isnumeric (text token)
  || Bool.eqb (isalnum (text token)) false
  || existsb (String.eqb (text token)) exclusion_list.

Definition clean_text (doc : option string) : M string :=
  try_except
    (doc' <- match doc with
             | Some s => call (nlp s)
             | None => raise (ValueError "[E1041] Expected a string, Doc, or bytes as input")
             end ;;
     let tokens :=
       fold_left (fun tokens token =>
                    if skipped token then tokens
                    else tokens ++ [strip (lower (lemma_ token))])
                 doc' [] in
     ret (join " " tokens))
    (fun e =>
       logger_error "Произошла ошибка при очистке текста" e ;;;
       ret "").

Definition error_reply : json_text :=
  Dumps true [("error", "Произошла ошибка при классификации текста.")].

Definition get_text_theme (input_text : option string) : M json_text :=
  try_except
    (clean_text' <- clean_text input_text ;;
     tokenized_text <- tokenize_text (Some clean_text') ;;
     input_vector <- vectorizer_transform tokenized_text ;;
     cats <- gets categories ;;
     selected <-
       for_in cats (fun category selected =>
         themes <- data_getitem category ;;
         for_in (keys themes) (fun theme selected =>
           themes' <- data_getitem category ;;
           category_phrases <- call (getitem themes' theme) ;;
           let category_text := join " " category_phrases in
           category_vector <- vectorizer_transform (Some category_text) ;;
           similarity <- call (cosine_similarity input_vector category_vector) ;;
           let '(max_category_similarity, _, _) := selected in
           if Qgtb similarity max_category_similarity
           then ret (similarity, category, theme)
           else ret selected)
         selected)
       (0%Q, "", "") ;;
     let '(_, selected_category, selected_theme) := selected in
     ret (Dumps false [("category", selected_category); ("theme", selected_theme)]))
    (fun e =>
       logger_error "Произошла ошибка при классификации текста" e ;;;
       ret error_reply).

(** [__init__]: the attributes are assigned twice in the source. *)
Definition __init__ (json_file : res taxonomy) : M unit :=
  d <- load_data json_file ;;
  set_data d ;;;
  ks <- match d with
        | Some d => ret (keys d)
        | None => raise (AttributeError "'NoneType' object has no attribute 'keys'")
        end ;;
  set_categories ks ;;;
  set_vectorizer None ;;;
  d <- load_data json_file ;;
  set_data d ;;;
  ks <- match d with
        | Some d => ret (keys d)
        | None => raise (AttributeError "'NoneType' object has no attribute 'keys'")
        end ;;
  set_categories ks ;;;
  set_vectorizer None ;;;
  documents <- prepare_data ;;
  train_vectorizer documents.

(** [TextAnalyst(json_file_path)]: the constructed object, or the
    exception that left [__init__]. *)
Definition new_TextAnalyst (json_file : res taxonomy) : res TextAnalyst :=
  match __init__ json_file
          {| logger := []; data := None; categories := []; vectorizer := None |} with
  | (Ok _, self) => Ok self
  | (Raise e, _) => Raise e
  end.

(** The tail of [check_url] in [nApi.py]: classify the page content and
    wrap the report in the response. *)
Definition check_url (page_content : option string) : M http_body :=
  report <- get_text_theme page_content ;;
  ret (DumpsStr false report).

End TextAnalystModel.

(** ** A reference implementation of the interfaces

    Small and executable, for running the methods on concrete inputs:
    whitespace tokenisation, a table-driven lemmatiser, term counts as
    vectors.  Bytes above 127 (the UTF-8 encoding of Cyrillic letters)
    count as letters. *)

Module Ref.

Definition is_digit (c : ascii) : bool :=
  let n := nat_of_ascii c in (48 <=? n)%nat && (n <=? 57)%nat.

Definition is_upper (c : ascii) : bool :=
  let n := nat_of_ascii c in (65 <=? n)%nat && (n <=? 90)%nat.

Definition is_letter (c : ascii) : bool :=
  let n := nat_of_ascii c in
  is_upper c || ((97 <=? n)%nat && (n <=? 122)%nat) || (128 <=? n)%nat.

Definition is_space (c : ascii) : bool :=
  let n := nat_of_ascii c in (n =? 32)%nat || ((9 <=? n)%nat && (n <=? 13)%nat).

Fixpoint all_chars (p : ascii -> bool) (s : string) : bool :=
  match s with
  | EmptyString => true
  | String c s' => p c && all_chars p s'
  end.

Definition nonempty (s : string) : bool :=
  match s with
  | EmptyString => false
  | String _ _ => true
  end.

Definition to_lower (c : ascii) : ascii :=
  if is_upper c then ascii_of_nat (nat_of_ascii c + 32) else c.

Fixpoint map_chars (f : ascii -> ascii) (s : string) : string :=
  match s with
  | EmptyString => EmptyString
  | String c s' => String (f c) (map_chars f s')
  end.

Fixpoint lstrip (s : string) : string :=
  match s with
  | EmptyString => EmptyString
  | String c s' => if is_space c then lstrip s' else s
  end.

Fixpoint rstrip (s : string) : string :=
  match s with
  | EmptyString => EmptyString
  | String c s' =>
      match rstrip s' with
      | EmptyString => if is_space c then EmptyString else String c EmptyString
      | r => String c r
      end
  end.

(** The maximal runs of non-blank characters; [cur] is the run being read,
    reversed. *)
Fixpoint split_acc (s : string) (cur : list ascii) : list string :=
  let flush rest :=
    match cur with
    | [] => rest
    | _ => string_of_list_ascii (rev cur) :: rest
    end in
  match s with
  | EmptyString => flush []
  | String c s' =>
      if is_space c then flush (split_acc s' []) else split_acc s' (c :: cur)
  end.

Definition split (s : string) : list string := split_acc s [].

Definition str : PyStr := {|
  isnumeric := fun s => nonempty s && all_chars is_digit s;
  isalnum := fun s => nonempty s && all_chars (fun c => is_digit c || is_letter c) s;
  lower := map_chars to_lower;
  strip := fun s => rstrip (lstrip s)
|}.

Definition nltk : Nltk := {|
  word_tokenize := fun s => Ok (split s)
|}.

Definition stop_words : list string := ["очень"; "и"; "в"; "на"].

Definition lemmas : list (string * string) :=
  [("красная", "красный"); ("машины", "машина"); ("быстро", "быстрый")].

Definition lemma_of (w : string) : string :=
  match getitem lemmas w with
  | Ok l => l
  | Raise _ => w
  end.

Definition token_of (w : string) : Token := {|
  text := w;
  lemma_ := lemma_of w;
  is_stop := existsb (String.eqb w) stop_words;
  is_punct := all_chars (fun c => negb (is_digit c || is_letter c)) w
|}.

Definition spacy : Spacy := {|
  nlp := fun s => Ok (map token_of (split s))
|}.

(** The terms of a document, as the vectorizer reads them. *)
Definition terms (doc : string) : list string := split (map_chars to_lower doc).

Fixpoint vocabulary (ws : list string) (seen : list string) : list string :=
  match ws with
  | [] => seen
  | w :: ws' =>
      if existsb (String.eqb w) seen then vocabulary ws' seen
      else vocabulary ws' (seen ++ [w])
  end.

Definition count (w : string) (ws : list string) : Z :=
  Z.of_nat (length (filter (String.eqb w) ws)).

Fixpoint dot (u v : list Z) : Z :=
  match u, v with
  | x :: u', y :: v' => (x * y + dot u' v')%Z
  | _, _ => 0%Z
  end.

(** Term-count rows; the score is the square of the cosine, which orders
    rows with non-negative entries as the cosine does and is rational. *)
Definition sklearn : Sklearn := {|
  model := list string;
  vector := list Z;
  fit_transform := fun documents =>
    match vocabulary (flat_map terms documents) [] with
    | [] => Raise (ValueError "empty vocabulary; perhaps the documents only contain stop words")
    | voc => Ok voc
    end;
  transform := fun voc doc => Ok (map (fun w => count w (terms doc)) voc);
  cosine_similarity := fun u v =>
    let uu := dot u u in
    let vv := dot v v in
    if ((uu =? 0) || (vv =? 0))%Z then Ok 0%Q
    else Ok (Qmake (dot u v * dot u v) (Z.to_pos (uu * vv)))
|}.

(** [TextAnalyst] over the reference implementation. *)
Definition analyst (json_file : res taxonomy) : res (@TextAnalyst sklearn) :=
  @new_TextAnalyst nltk sklearn json_file.

Definition classify (self : @TextAnalyst sklearn) (input_text : option string) :
  res json_text * @TextAnalyst sklearn :=
  @get_text_theme str nltk spacy sklearn input_text self.

End Ref.

(** ** Sample taxonomies *)

(** [{"A": {"t1": ["красная машина"]}, "B": {"t2": ["красная машина"]}}] *)
Definition taxonomy_tie : taxonomy :=
  [("A", [("t1", ["красная машина"])]); ("B", [("t2", ["красная машина"])])].

(** [{"W": {"погода": ["погода дождь снег"]}}] *)
Definition taxonomy_weather : taxonomy :=
  [("W", [("погода", ["погода дождь снег"])])].

(** [{"A": {"t1": []}}] *)
Definition taxonomy_no_phrase : taxonomy :=
  [("A", [("t1", [])])].

(** [{"A": {"t1": [], "t2": ["машина 123"]}}] *)
Definition taxonomy_cars : taxonomy :=
  [("A", [("t1", []); ("t2", ["машина 123"])])].

(** ** Functional description of the methods

    What each method returns and logs, as functions of its arguments; the
    theorems below relate the methods to them. *)

Section Description.

Context {STR : PyStr} {NLTK : Nltk} {SPACY : Spacy} {SK : Sklearn}.

(** [self] after the logger has written [l]. *)
Definition add_log (l : list log_record) (self : TextAnalyst) : TextAnalyst :=
  {| logger := logger self ++ l;
     data := data self;
     categories := categories self;
     vectorizer := vectorizer self |}.

(** Two objects with the same taxonomy and the same fitted model. *)
Definition same_model (self self' : TextAnalyst) : Prop :=
  data self = data self' /\ categories self = categories self'
  /\ vectorizer self = vectorizer self'.

(** A method that leaves the taxonomy and the model alone, and whose
    outcome does not depend on what has been logged. *)
Definition stable {A : Type} (c : M A) : Prop :=
  forall self self', same_model self self' ->
    fst (c self) = fst (c self') /\ same_model self (snd (c self)).

(** The lemmas [clean_text] keeps, in order. *)
Definition kept (doc : list Token) : list string :=
  map (fun token => strip (lower (lemma_ token)))
      (filter (fun token => negb (skipped token)) doc).

(** The discard rule in the words of the specification: the last test is
    on the lower-cased lemma. *)
Definition discarded_spec (token : Token) : bool :=
  is_stop token || is_punct token || isnumeric (text token)
  || negb (isalnum (text token))
  || existsb (String.eqb (lower (lemma_ token))) exclusion_list.

(** Value and log of [clean_text]. *)
Definition clean_outcome (doc : option string) : string * list log_record :=
  match doc with
  | None =>
      ("", [("Произошла ошибка при очистке текста",
             ValueError "[E1041] Expected a string, Doc, or bytes as input")])
  | Some s =>
      match nlp s with
      | Ok doc' => (join " " (kept doc'), [])
      | Raise e => ("", [("Произошла ошибка при очистке текста", e)])
      end
  end.

(** Value and log of [tokenize_text]. *)
Definition tokenize_outcome (input_text : option string) :
  option string * list log_record :=
  if not_text input_text
  then (None, [("Произошла ошибка при токенизации текста",
                ValueError "Входной текст пуст.")])
  else
    match input_text with
    | None => (None, [])
    | Some s =>
        match word_tokenize s with
        | Ok tokens => (Some (join " " tokens), [])
        | Raise e => (None, [("Произошла ошибка при токенизации текста", e)])
        end
    end.

(** The document [get_text_theme] hands to [transform] for the input, and
    what has been logged by then. *)
Definition input_document (input_text : option string) : option string :=
  fst (tokenize_outcome (Some (fst (clean_outcome input_text)))).

Definition input_log (input_text : option string) : list log_record :=
  snd (clean_outcome input_text)
  ++ snd (tokenize_outcome (Some (fst (clean_outcome input_text)))).

(** Outcome of [self.vectorizer.transform([doc])]. *)
Definition transform_doc (v : option model) (doc : option string) : res vector :=
  match v with
  | None => Raise (NotFittedError "The TF-IDF vectorizer is not fitted")
  | Some m =>
      match doc with
      | None => Raise (AttributeError "'NoneType' object has no attribute 'lower'")
      | Some s => transform m s
      end
  end.

(** The vector of a theme: the phrases joined by single spaces, transformed
    as they are. *)
Definition theme_vector (v : option model) (phrases : list string) : res vector :=
  transform_doc v (Some (join " " phrases)).

(** The vector of a theme in the words of the specification:
    [transform(tokenize(theme_text))]. *)
Definition theme_vector_spec (v : option model) (phrases : list string) : res vector :=
  transform_doc v (fst (tokenize_outcome (Some (join " " phrases)))).

(** One turn of the selection: strictly greater replaces. *)
Definition update (selected : Q * string * string) (category theme : string)
  (similarity : Q) : Q * string * string :=
  let '(max_category_similarity, _, _) := selected in
  if Qgtb similarity max_category_similarity
  then (similarity, category, theme)
  else selected.

(** The selection over scored pairs, from left to right. *)
Definition best (scored : list (string * string * Q)) (selected : Q * string * string) :
  Q * string * string :=
  fold_left (fun sel cts => update sel (fst (fst cts)) (snd (fst cts)) (snd cts))
            scored selected.

(** The similarity of each pair to the input vector, stopping at the first
    call that raises; [tv] computes the vector of a theme. *)
Definition scored (tv : list string -> res vector) (input_vector : vector)
  (ps : list (string * string * list string)) : res (list (string * string * Q)) :=
  res_map (fun ctp =>
             res_bind (tv (snd ctp)) (fun category_vector =>
             res_bind (cosine_similarity input_vector category_vector) (fun similarity =>
             Ok (fst (fst ctp), snd (fst ctp), similarity))))
          ps.

(** The loop of [get_text_theme] as one pass over the pairs. *)
Fixpoint scan (tv : list string -> res vector) (input_vector : vector)
  (ps : list (string * string * list string)) (selected : Q * string * string) :
  res (Q * string * string) :=
  match ps with
  | [] => Ok selected
  | ctp :: ps' =>
      res_bind (tv (snd ctp)) (fun category_vector =>
      res_bind (cosine_similarity input_vector category_vector) (fun similarity =>
      scan tv input_vector ps'
           (update selected (fst (fst ctp)) (snd (fst ctp)) similarity)))
  end.

(** Classification of [input_text] against taxonomy [d] and vectorizer [v]. *)
Definition classify (tv : list string -> res vector) (v : option model)
  (d : taxonomy) (input_text : option string) : res (Q * string * string) :=
  res_bind (transform_doc v (input_document input_text)) (fun input_vector =>
  scan tv input_vector (pairs d) (0%Q, "", "")).

Definition no_match : json_text := Dumps false [("category", ""); ("theme", "")].

(** The text returned for an outcome of the [try] block. *)
Definition reply (r : res (Q * string * string)) : json_text :=
  match r with
  | Ok (_, selected_category, selected_theme) =>
      Dumps false [("category", selected_category); ("theme", selected_theme)]
  | Raise _ => error_reply
  end.

(** The fit-time documents in the words of the specification: each phrase
    normalised, then tokenised and joined. *)
Definition fit_documents_spec (d : taxonomy) : list (option string) :=
  map (fun phrase => input_document (Some phrase)) (phrases d).

(** One turn of the loop of [get_text_theme], after the lookups. *)
Definition theme_turn_body (input_vector : vector) (category theme : string)
  (category_phrases : list string) (selected : Q * string * string) :
  M (Q * string * string) :=
  let category_text := join " " category_phrases in
  bind (vectorizer_transform (Some category_text)) (fun category_vector =>
  bind (call (cosine_similarity input_vector category_vector)) (fun similarity =>
  let '(max_category_similarity, _, _) := selected in
  if Qgtb similarity max_category_similarity
  then ret (similarity, category, theme)
  else ret selected)).

(** The documents [prepare_data] returns: one per phrase, its tokens joined
    by single spaces; [None] when a call to the tokenizer raises. *)
Definition fit_documents (d : taxonomy) : option (list string) :=
  match res_map word_tokenize (phrases d) with
  | Ok tokens => Some (map (join " ") tokens)
  | Raise _ => None
  end.

Definition prepare_log (d : taxonomy) : list log_record :=
  match res_map word_tokenize (phrases d) with
  | Ok _ => []
  | Raise e => [("Произошла ошибка при подготовке данных", e)]
  end.

(** The model [train_vectorizer] installs, if any, and what it logs. *)
Definition train_outcome (documents : option (list string)) :
  option model * list log_record :=
  match documents with
  | Some (doc :: docs) =>
      match fit_transform (doc :: docs) with
      | Ok m => (Some m, [])
      | Raise e => (None, [("Произошла ошибка при обучении векторизатора", e)])
      end
  | _ => (None, [("Произошла ошибка при обучении векторизатора",
                  ValueError "Список униграмм пуст.")])
  end.

(** [self] after [train_vectorizer documents]. *)
Definition trained (documents : option (list string)) (self : TextAnalyst) :
  TextAnalyst :=
  {| logger := logger self ++ snd (train_outcome documents);
     data := data self;
     categories := categories self;
     vectorizer := match fst (train_outcome documents) with
                   | Some m => Some m
                   | None => vectorizer self
                   end |}.

(** Successive requests served by one shared object, as [nApi.py] does
    with its module-level [analyzer]. *)
Fixpoint serve (inputs : list (option string)) (self : TextAnalyst) :
  list (res json_text) * TextAnalyst :=
  match inputs with
  | [] => ([], self)
  | input_text :: inputs' =>
      let '(r, self') := get_text_theme input_text self in
      let '(rs, self'') := serve inputs' self' in
      (r :: rs, self'')
  end.

End Description.

Module RefData.

(** The object built from a parsed taxonomy, or the blank object when the
    constructor raises. *)
Definition built (d : taxonomy) : @TextAnalyst Ref.sklearn :=
  match Ref.analyst (Ok d) with
  | Ok self => self
  | Raise _ => {| logger := []; data := None; categories := []; vectorizer := None |}
  end.

End RefData.

(** * The page fetcher of [WebParserS.py] and the handler of [nApi.py] *)

Module Web.

(** ** Exceptions and results

    A constructor stands for the Python class and its subclasses;
    [RequestException] is [requests.exceptions.RequestException]. *)
Inductive error : Type :=
| RequestException (msg : string)
| ValueError (msg : string)
| TypeError
| AttributeError (msg : string)
| IndexError
| FileNotFoundError (msg : string)
| MarkupResemblesLocatorWarning
| OtherError (msg : string).

Inductive outcome (A : Type) : Type :=
| Return (a : A)
| Throw (e : error).
Arguments Return {A} a.
Arguments Throw {A} e.

(** A record written by the parser's logger: the message, the URL and the
    exception formatted into it. *)
Inductive line : Type :=
| Line (message : string) (url : option string) (e : option error).

(** [self] of a [WebParser]: its logger. *)
Definition WebParser : Type := list line.

(** [d[k] = v] *)
Fixpoint setitem {V : Type} (d : dict V) (k : string) (v : V) : dict V :=
  match d with
  | [] => [(k, v)]
  | (k', v') :: d' =>
      if String.eqb k' k then (k', v) :: d' else (k', v') :: setitem d' k v
  end.

(** [d.get(k, default)] *)
Definition get_default {V : Type} (d : dict V) (k : string) (default : V) : V :=
  match getitem d k with
  | Ok v => v
  | Raise _ => default
  end.

(** ** External interfaces *)

(** [requests] and [urllib.parse.urljoin]. *)
Class Requests : Type := {
  response : Type;
  requests_get : string -> outcome response;
  raise_for_status : response -> outcome unit;
  urljoin : string -> string -> string
}.

(** [bs4]: [soup_of_text r parser] is [BeautifulSoup(r.text, parser)],
    [soup_of_content r] is
    [BeautifulSoup(r.content, 'html.parser', from_encoding=r.encoding)];
    [tags] lists the tags of the document in order, which is what
    [find_all(function)] tests one by one; a tag is truthy. *)
Class Bs4 {R : Requests} : Type := {
  soup : Type;
  tag : Type;
  soup_of_text : response -> string -> outcome soup;
  soup_of_content : response -> outcome soup;
  find : soup -> string -> option tag;
  tags : soup -> list tag;
  find_all : tag -> string -> list tag;
  tag_name : tag -> string;
  tag_attrs : tag -> dict string;
  tag_text : tag -> string;
  stripped_strings : soup -> list string
}.

(** [os.path.splitext] and the readers of the four file formats.  The rows
    of [csv.reader] are read while the loop runs: the rows read, and the
    exception that ended the reading, if any.  A cell of a worksheet that
    is not a [str] is [None]; the JSON file holds a list of objects with
    string members. *)
Class Files : Type := {
  splitext : string -> string * string;
  readlines : string -> outcome (list string);
  csv_reader : string -> outcome (list (list string) * option error);
  worksheet_rows : string -> outcome (list (list (option string)));
  json_load : string -> outcome (list (dict string))
}.

Section WebParserModel.

Context {STR : PyStr} {R : Requests} {B : Bs4} {F : Files}.

Definition W (A : Type) : Type := WebParser -> outcome A * WebParser.

Definition ret {A : Type} (a : A) : W A := fun self => (Return a, self).

Definition raise {A : Type} (e : error) : W A := fun self => (Throw e, self).

Definition bind {A B' : Type} (c : W A) (k : A -> W B') : W B' :=
  fun self =>
    match c self with
    | (Return a, self') => k a self'
    | (Throw e, self') => (Throw e, self')
    end.

#[local] Notation "x <- c ;; k" := (bind c (fun x => k))
  (at level 61, c at next level, right associativity).
#[local] Notation "c ;;; k" := (bind c (fun _ => k))
  (at level 61, right associativity).

Definition call {A : Type} (r : outcome A) : W A := fun self => (r, self).

Definition Exception (e : error) : bool := true.

Definition is_RequestException (e : error) : bool :=
  match e with RequestException _ => true | _ => false end.

Definition is_ValueError (e : error) : bool :=
  match e with ValueError _ => true | _ => false end.

Definition is_FileNotFoundError (e : error) : bool :=
  match e with FileNotFoundError _ => true | _ => false end.

Definition is_MarkupResemblesLocatorWarning (e : error) : bool :=
  match e with MarkupResemblesLocatorWarning => true | _ => false end.

(** The [except] clauses of a [try], tried in order: the class test and
    the handler of each; an exception no clause catches goes on. *)
Fixpoint dispatch {A : Type} (clauses : list ((error -> bool) * (error -> W A)))
  (e : error) : W A :=
  match clauses with
  | [] => raise e
  | (caught, handler) :: rest => if caught e then handler e else dispatch rest e
  end.

Definition try_except {A : Type} (body : W A)
  (clauses : list ((error -> bool) * (error -> W A))) : W A :=
  fun self =>
    match body self with
    | (Return a, self') => (Return a, self')
    | (Throw e, self') => dispatch clauses e self'
    end.

Definition logger_error (l : line) : W unit := fun self => (Return tt, self ++ [l]).

Fixpoint for_in {A S : Type} (l : list A) (body : A -> S -> W S) (s : S) : W S :=
  match l with
  | [] => ret s
  | x :: l' => s' <- body x s ;; for_in l' body s'
  end.

(** The loop over the [disallow] directives; [Some false] is the
    [return False] that leaves it. *)
Fixpoint disallow_loop (url base_url : string) (disallow_directives : list tag) :
  W (option bool) :=
  match disallow_directives with
  | [] => ret None
  | directive :: rest =>
      if String.eqb (tag_text directive) "/"
         || String.prefix (urljoin base_url (tag_text directive)) url
      then
        logger_error
          (Line "Сканирование для {url} запрещено в robots.txt." (Some url) None) ;;;
        ret (Some false)
      else disallow_loop url base_url rest
  end.

Definition check_scraping_permission (url : string) : W bool :=
  try_except
    (let base_url := urljoin url "/robots.txt" in
     response <- call (requests_get base_url) ;;
     call (raise_for_status response) ;;;
     soup <- try_except
               (call (soup_of_text response "lxml"))
               [(is_MarkupResemblesLocatorWarning,
                 fun _ => call (soup_of_text response "html.parser"))] ;;
     let user_agent_directive := find soup "user-agent: *" in
     returned <- match user_agent_directive with
                 | Some directive =>
                     disallow_loop url base_url (find_all directive "disallow")
                 | None => ret None
                 end ;;
     match returned with
     | Some b => ret b
     | None => ret true
     end)
    [(Exception, fun e =>
        logger_error
          (Line "Ошибка при проверке разрешения на сканирование(Возможно файл не найден): {e}"
                None (Some e)) ;;;
        ret true)].

(** [None] is the value of the bare [return]. *)
Definition get_html_title (url : string) : W (option string) :=
  try_except
    (allowed <- check_scraping_permission url ;;
     if negb allowed
     then
       logger_error (Line "Сканирование для {url} запрещено." (Some url) None) ;;;
       ret None
     else
       response <- call (requests_get url) ;;
       call (raise_for_status response) ;;;
       soup <- call (soup_of_text response "html.parser") ;;
       let title_tag := find soup "title" in
       match title_tag with
       | Some title_tag =>
           let title := tag_text title_tag in
           ret (Some (strip title))
       | None => ret (Some "")
       end)
    [(Exception, fun e =>
        logger_error
          (Line "Произошла ошибка при получении заголовка: {e}" None (Some e)) ;;;
        ret (Some ""))].

(** [key in d] *)
Definition has_attr (t : tag) (key : string) : bool :=
  existsb (String.eqb key) (keys (tag_attrs t)).

(** [tag[key]], read where [has_attr] holds. *)
Definition attr (t : tag) (key : string) : string :=
  get_default (tag_attrs t) key "".

(** The function given to [find_all] in [get_html_meta_tags]. *)
Definition is_meta (t : tag) : bool :=
  String.eqb (tag_name t) "meta"
  && has_attr t "name"
  && has_attr t "content"
  && existsb (String.eqb (lower (attr t "name"))) ["keywords"; "description"].

(** [bool(s)] of a string. *)
Definition truthy (s : string) : bool :=
  match s with
  | EmptyString => false
  | String _ _ => true
  end.

Definition get_html_meta_tags (url : string) : W (option string) :=
  try_except
    (allowed <- check_scraping_permission url ;;
     if negb allowed
     then
       logger_error (Line "Сканирование для {url} запрещено." (Some url) None) ;;;
       ret None
     else
       response <- call (requests_get url) ;;
       call (raise_for_status response) ;;;
       soup <- call (soup_of_content response) ;;
       let tags := filter is_meta (tags soup) in
       let content :=
         map (fun t => strip (attr t "content"))
             (filter (fun t => truthy (strip (attr t "content"))) tags) in
       let meta := join " " content in
       ret (Some meta))
    [(Exception, fun e =>
        logger_error
          (Line "Произошла ошибка при получении мета-тегов: {e}" None (Some e)) ;;;
        ret (Some ""))].

(** [title + " " + meta]: [+] raises [TypeError] on [None]. *)
Definition concat3 (title : option string) (sep : string) (meta : option string) :
  outcome string :=
  match title, meta with
  | Some title, Some meta => Return (title ++ sep ++ meta)%string
  | _, _ => Throw TypeError
  end.

Definition get_title_and_meta (url : string) : W string :=
  try_except
    (title <- get_html_title url ;;
     meta <- get_html_meta_tags url ;;
     call (concat3 title " " meta))
    [(Exception, fun e =>
        logger_error
          (Line "Произошла ошибка при получении заголовка и мета-тегов: {e}"
                None (Some e)) ;;;
        ret "")].

Definition get_text_from_url (url : string) : W (option string) :=
  try_except
    (allowed <- check_scraping_permission url ;;
     if negb allowed
     then
       logger_error (Line "Сканирование для {url} запрещено." (Some url) None) ;;;
       ret None
     else
       response <- call (requests_get url) ;;
       call (raise_for_status response) ;;;
       soup <- call (soup_of_text response "html.parser") ;;
       let text := join " " (stripped_strings soup) in
       ret (Some text))
    [(is_RequestException, fun e =>
        logger_error
          (Line "Произошла ошибка при получении текста из {url}: {e}"
                (Some url) (Some e)) ;;;
        ret (Some "Ошибка соединения"));
     (is_ValueError, fun e =>
        logger_error
          (Line "Произошла ошибка при получении текста из {url}: {e}"
                (Some url) (Some e)) ;;;
        ret (Some ""))].

(** [row[0]] *)
Definition first_cell {A : Type} (row : list A) : outcome A :=
  match row with
  | x :: _ => Return x
  | [] => Throw IndexError
  end.

(** [cell.strip()] on a cell of a worksheet. *)
Definition strip_cell (cell : option string) : outcome string :=
  match cell with
  | Some s => Return (strip s)
  | None => Throw (AttributeError "object has no attribute 'strip'")
  end.

(** The body shared by the four loops: fetch, then [url_to_text[url] = text]. *)
Definition fetch_into (url : string) (url_to_text : dict (option string)) :
  W (dict (option string)) :=
  text <- get_text_from_url url ;;
  ret (setitem url_to_text url text).

Definition supported_extensions : list string := [".txt"; ".csv"; ".xlsx"; ".json"].

Definition get_text_from_urls_in_file (file_path : string) :
  W (dict (option string)) :=
  let file_extension := snd (splitext file_path) in
  if negb (existsb (String.eqb (lower file_extension)) supported_extensions)
  then raise (ValueError "Файл должен иметь расширение .txt, .csv, .xlsx или .json")
  else
    let url_to_text := [] in
    try_except
      (if String.eqb (lower file_extension) ".txt" then
         urls <- call (readlines file_path) ;;
         for_in urls (fun url url_to_text =>
                        let url := strip url in
                        fetch_into url url_to_text)
                url_to_text
       else if String.eqb (lower file_extension) ".csv" then
         reader <- call (csv_reader file_path) ;;
         url_to_text <-
           for_in (fst reader) (fun row url_to_text =>
                                  cell <- call (first_cell row) ;;
                                  let url := strip cell in
                                  fetch_into url url_to_text)
                  url_to_text ;;
         match snd reader with
         | Some e => raise e
         | None => ret url_to_text
         end
       else if String.eqb (lower file_extension) ".xlsx" then
         rows <- call (worksheet_rows file_path) ;;
         for_in rows (fun row url_to_text =>
                        cell <- call (first_cell row) ;;
                        url <- call (strip_cell cell) ;;
                        fetch_into url url_to_text)
                url_to_text
       else if String.eqb (lower file_extension) ".json" then
         data <- call (json_load file_path) ;;
         for_in data (fun item url_to_text =>
                        let url := strip (get_default item "url"
                                            (get_default item "domain" "")) in
                        fetch_into url url_to_text)
                url_to_text
       else ret url_to_text)
      [(is_FileNotFoundError, fun e =>
          logger_error (Line "Файл не найден: {e}" None (Some e)) ;;;
          raise e)].

End WebParserModel.

End Web.

(** ** The handler [check_url] of [nApi.py] *)

Module Api.

(** The request, by what the handler reads: [request.method],
    [request.args], [request.form] and the outcome of
    [request.get_json()] (a JSON object with string members, or [None]). *)
Record Request : Type := {
  method : string;
  args : dict string;
  form : dict string;
  get_json : Web.outcome (option (dict string))
}.

(** [jsonify(obj), status], or
    [Response(json.dumps(report, ensure_ascii=False), ...)] with its
    default status. *)
Inductive http_response : Type :=
| Jsonify (obj : list (string * string)) (status : nat)
| Response (body : http_body) (status : nat).

Section Handler.

Context {STR : PyStr} {NLTK : Nltk} {SPACY : Spacy} {SK : Sklearn}
        {R : Web.Requests} {B : Web.Bs4}.

(** The module-level objects [parser] and [analyzer], and what has been
    printed. *)
Record App : Type := {
  parser : Web.WebParser;
  analyzer : TextAnalyst;
  stdout : list string
}.

(** [d.get(k)] *)
Definition get (d : dict string) (k : string) : option string :=
  match getitem d k with
  | Ok v => Some v
  | Raise _ => None
  end.

(** [if url:] *)
Definition url_given (url : option string) : bool :=
  match url with
  | Some (String _ _) => true
  | _ => false
  end.

(** The branch [if url:] of the handler. *)
Definition answer (url : option string) (app : App) :
  Web.outcome http_response * App :=
  match url with
  | Some (String c u) =>
      let url := String c u in
      let '(page_content, parser') := Web.get_title_and_meta url (parser app) in
      match page_content with
      | Web.Throw e =>
          (Web.Throw e,
           {| parser := parser'; analyzer := analyzer app; stdout := stdout app |})
      | Web.Return page_content =>
          let stdout' := stdout app ++ [page_content] in
          match check_url (Some page_content) (analyzer app) with
          | (Ok body, analyzer') =>
              (Web.Return (Response body 200),
               {| parser := parser'; analyzer := analyzer'; stdout := stdout' |})
          | (Raise _, analyzer') =>
              (Web.Throw (Web.OtherError "get_text_theme"),
               {| parser := parser'; analyzer := analyzer'; stdout := stdout' |})
          end
      end
  | _ =>
      (Web.Return (Jsonify [("error", "Неверный или отсутствующий параметр URL")] 400),
       app)
  end.

Definition check_url (request : Request) (app : App) :
  Web.outcome http_response * App :=
  if String.eqb (method request) "GET" then
    let url := get (args request) "url" in
    answer url app
  else if String.eqb (method request) "POST" then
    let url := get (form request) "url" in
    match url with
    | None =>
        match get_json request with
        | Web.Throw e => (Web.Throw e, app)
        | Web.Return data =>
            let url :=
              match data with
              | Some d =>
                  if negb (Nat.eqb (length d) 0) && existsb (String.eqb "url") (keys d)
                  then get d "url"
                  else None
              | None => None
              end in
            answer url app
        end
    | Some _ => answer url app
    end
  else
    (Web.Return (Jsonify [("error", "Неверный метод запроса")] 400), app).

End Handler.

End Api.

(** ** A reference web: a few pages and files held in tables *)

Module RefWeb.

(** A tag: name, attributes, text, and the (name, text) of the tags below it. *)
Record rtag : Type := RTag {
  rtag_name : string;
  rtag_attrs : dict string;
  rtag_text : string;
  rtag_children : list (string * string)
}.

Record page : Type := {
  status_ok : bool;
  parses : bool;
  page_tags : list rtag;
  page_strings : list string
}.

Definition meta (name content : string) : rtag :=
  RTag "meta" [("name", name); ("content", content)] "" [].

Definition site : dict page :=
  [("https://shop.example/",
    {| status_ok := true; parses := true;
       page_tags := [RTag "title" [] "  Красная машина  " [];
                     meta "Keywords" " машина ";
                     meta "description" "   ";
                     meta "author" "кто-то";
                     meta "DESCRIPTION" "очень быстро"];
       page_strings := ["Красная машина"; "очень быстро"] |});
   ("https://shop.example/robots.txt",
    {| status_ok := false; parses := true; page_tags := []; page_strings := [] |});
   ("https://closed.example/page",
    {| status_ok := true; parses := true;
       page_tags := [RTag "title" [] "Закрыто" []];
       page_strings := ["Закрыто"] |});
   ("https://broken.example/",
    {| status_ok := true; parses := false; page_tags := []; page_strings := [] |});
   ("https://closed.example/robots.txt",
    {| status_ok := true; parses := true;
       page_tags := [RTag "user-agent: *" [] "" [("disallow", "/page")]];
       page_strings := [] |})].

(** The scheme and host of a URL: what precedes its third "/". *)
Fixpoint origin (slashes : nat) (url : string) : string :=
  match url with
  | EmptyString => EmptyString
  | String c url' =>
      if Ascii.eqb c "/"
      then match slashes with
           | O => EmptyString
           | S n => String c (origin n url')
           end
      else String c (origin slashes url')
  end.

Definition requests : Web.Requests := {|
  Web.response := page;
  Web.requests_get := fun url =>
    match getitem site url with
    | Ok p => Web.Return p
    | Raise _ => Web.Throw (Web.RequestException "connection failed")
    end;
  Web.raise_for_status := fun p =>
    if status_ok p then Web.Return tt
    else Web.Throw (Web.RequestException "404 Client Error");
  Web.urljoin := fun base url =>
    if String.prefix "/" url then (origin 2 base ++ url)%string else url
|}.

Definition bs4 : @Web.Bs4 requests := {|
  Web.soup := page;
  Web.tag := rtag;
  Web.soup_of_text := fun (p : @Web.response requests) _ =>
    if parses p then @Web.Return page p else Web.Throw (Web.OtherError "parser");
  Web.soup_of_content := fun (p : @Web.response requests) =>
    if parses p then @Web.Return page p else Web.Throw (Web.OtherError "parser");
  Web.find := fun p name => List.find (fun t => String.eqb (rtag_name t) name) (page_tags p);
  Web.tags := page_tags;
  Web.find_all := fun t name =>
    map (fun nx => RTag (fst nx) [] (snd nx) [])
        (filter (fun nx => String.eqb (fst nx) name) (rtag_children t));
  Web.tag_name := rtag_name;
  Web.tag_attrs := rtag_attrs;
  Web.tag_text := rtag_text;
  Web.stripped_strings := page_strings
|}.

(** The same parser, with the tag names of a real document: a name holds
    no blank, so no tag is found under a name that has one. *)
Definition has_blank (name : string) : bool :=
  negb (Ref.all_chars (fun c => negb (Ascii.eqb c " ")) name).

Definition plain_bs4 : @Web.Bs4 requests := {|
  Web.soup := page;
  Web.tag := rtag;
  Web.soup_of_text := fun (p : @Web.response requests) _ =>
    if parses p then @Web.Return page p else Web.Throw (Web.OtherError "parser");
  Web.soup_of_content := fun (p : @Web.response requests) =>
    if parses p then @Web.Return page p else Web.Throw (Web.OtherError "parser");
  Web.find := fun p name =>
    if has_blank name then None
    else List.find (fun t => String.eqb (rtag_name t) name) (page_tags p);
  Web.tags := page_tags;
  Web.find_all := fun t name =>
    map (fun nx => RTag (fst nx) [] (snd nx) [])
        (filter (fun nx => String.eqb (fst nx) name) (rtag_children t));
  Web.tag_name := rtag_name;
  Web.tag_attrs := rtag_attrs;
  Web.tag_text := rtag_text;
  Web.stripped_strings := page_strings
|}.

(** The extension: from the last "." on. *)
Fixpoint extension (path : string) : string :=
  match path with
  | EmptyString => EmptyString
  | String c path' =>
      match extension path' with
      | EmptyString => if Ascii.eqb c "." then path else EmptyString
      | ext => ext
      end
  end.

Definition files : Web.Files := {|
  Web.splitext := fun path => (path, extension path);
  Web.readlines := fun path =>
    if String.eqb path "urls.txt"
    then Web.Return ["https://shop.example/ "; "https://closed.example/page";
                     " https://shop.example/"]
    else Web.Throw (Web.FileNotFoundError path);
  Web.csv_reader := fun path =>
    if String.eqb path "urls.CSV"
    then Web.Return ([["https://shop.example/"; "x"]; []], None)
    else Web.Throw (Web.FileNotFoundError path);
  Web.worksheet_rows := fun path => Web.Throw (Web.FileNotFoundError path);
  Web.json_load := fun path =>
    if String.eqb path "urls.json"
    then Web.Return [[("url", "https://shop.example/")];
                     [("domain", "https://closed.example/page")];
                     [("name", "x")]]
    else Web.Throw (Web.FileNotFoundError path)
|}.

(** The application of [nApi.py] over the reference implementations. *)
Definition app (d : taxonomy) : @Api.App Ref.sklearn :=
  {| Api.parser := []; Api.analyzer := RefData.built d; Api.stdout := [] |}.

Definition get_request (url : string) : Api.Request :=
  {| Api.method := "GET"; Api.args := [("url", url)]; Api.form := [];
     Api.get_json := Web.Return None |}.

(** [{"A": {"t": [" "]}}]: a single blank phrase. *)
Definition taxonomy_blank : taxonomy := [("A", [("t", [" "])])].

End RefWeb.

(** ** Notions used by the further properties *)

Section Notions.

Context {STR : PyStr} {NLTK : Nltk} {SPACY : Spacy} {SK : Sklearn}
        {R : Web.Requests} {B : Web.Bs4} {F : Web.Files}.

(** A method of [TextAnalyst] that leaves [self] as it is. *)
Definition silent {A : Type} (c : M A) : Prop :=
  forall self, snd (c self) = self.

(** A method of [WebParser] whose outcome does not depend on the logger
    and which only appends lines to it. *)
Definition logs_only {A : Type} (c : Web.W A) : Prop :=
  exists v l, forall self, c self = (v, self ++ l).

(** The text [get_text_from_url] returns for a URL. *)
Definition page_text (url : string) : Web.outcome (option string) :=
  fst (Web.get_text_from_url url []).

(** The title part and the meta part of [get_title_and_meta] for a page
    parsed as [soup]. *)
Definition title_of (soup : Web.soup) : string :=
  match Web.find soup "title" with
  | Some title_tag => strip (Web.tag_text title_tag)
  | None => ""
  end.

Definition meta_of (soup : Web.soup) : string :=
  join " " (filter Web.truthy
              (map (fun t => strip (Web.attr t "content"))
                   (filter Web.is_meta (Web.tags soup)))).

(** The request for [url] fails with [e]: [requests.get] raises it, or
    [raise_for_status] does. *)
Definition request_fails (url : string) (e : Web.error) : Prop :=
  Web.requests_get url = Web.Throw e
  \/ exists response,
       Web.requests_get url = Web.Return response
       /\ Web.raise_for_status response = Web.Throw e.

(** The URL a JSON item names. *)
Definition item_url (item : dict string) : string :=
  strip (Web.get_default item "url" (Web.get_default item "domain" "")).

End Notions.

(** * Properties *)

Section Properties.

Context {STR : PyStr} {NLTK : Nltk} {SPACY : Spacy} {SK : Sklearn}.

(** ** The logger and the model *)

Lemma add_log_nil (self : TextAnalyst) : add_log [] self = self.
Proof. destruct self; unfold add_log; simpl. now rewrite app_nil_r. Qed.

Lemma add_log_app (l l' : list log_record) (self : TextAnalyst) :
  add_log l' (add_log l self) = add_log (l ++ l') self.
Proof. unfold add_log; simpl. now rewrite app_assoc. Qed.

Lemma same_model_refl (self : TextAnalyst) : same_model self self.
Proof. now repeat split. Qed.

Lemma same_model_sym (s s' : TextAnalyst) : same_model s s' -> same_model s' s.
Proof. intros (Hd & Hc & Hv). now repeat split. Qed.

Lemma same_model_trans (s1 s2 s3 : TextAnalyst) :
  same_model s1 s2 -> same_model s2 s3 -> same_model s1 s3.
Proof.
  intros (Hd & Hc & Hv) (Hd' & Hc' & Hv').
  repeat split; congruence.
Qed.

Lemma same_model_add_log (l : list log_record) (self : TextAnalyst) :
  same_model self (add_log l self).
Proof. now repeat split. Qed.

(** ** Normalisation *)

Lemma clean_loop (doc : list Token) (tokens : list string) :
  fold_left (fun tokens token =>
               if skipped token then tokens
               else tokens ++ [strip (lower (lemma_ token))])
            doc tokens
  = tokens ++ kept doc.
Proof.
  revert tokens. induction doc as [|token doc IH]; intros tokens; simpl.
  - unfold kept; simpl. now rewrite app_nil_r.
  - rewrite IH. unfold kept; simpl.
    destruct (skipped token); simpl; [reflexivity|].
    now rewrite <- app_assoc.
Qed.

Lemma clean_text_run (doc : option string) (self : TextAnalyst) :
  clean_text doc self
  = (Ok (fst (clean_outcome doc)), add_log (snd (clean_outcome doc)) self).
Proof.
  unfold clean_text, clean_outcome, try_except, bind, call, raise, ret, logger_error.
  destruct doc as [s|]; simpl.
  - destruct (nlp s) as [doc'|e]; simpl.
    + now rewrite clean_loop, add_log_nil.
    + reflexivity.
  - reflexivity.
Qed.

Lemma tokenize_text_run (input_text : option string) (self : TextAnalyst) :
  tokenize_text input_text self
  = (Ok (fst (tokenize_outcome input_text)),
     add_log (snd (tokenize_outcome input_text)) self).
Proof.
  unfold tokenize_text, tokenize_outcome, try_except, bind, call, raise, ret, logger_error.
  destruct input_text as [[|c s]|]; simpl; try reflexivity.
  destruct (word_tokenize (String c s)) as [tokens|e]; simpl.
  - now rewrite add_log_nil.
  - reflexivity.
Qed.

Lemma vectorizer_transform_run (doc : option string) (self : TextAnalyst) :
  vectorizer_transform doc self = (transform_doc (vectorizer self) doc, self).
Proof.
  unfold vectorizer_transform, transform_doc, bind, gets, raise, call.
  destruct (vectorizer self) as [m|]; [destruct doc|]; reflexivity.
Qed.

(** ** Stability: what a method may depend on and change *)

Lemma stable_ret {A : Type} (a : A) : stable (ret a).
Proof. intros s s' E. split; [reflexivity | apply same_model_refl]. Qed.

Lemma stable_raise {A : Type} (e : exn) : stable (@raise _ A e).
Proof. intros s s' E. split; [reflexivity | apply same_model_refl]. Qed.

Lemma stable_call {A : Type} (r : res A) : stable (call r).
Proof. intros s s' E. split; [reflexivity | apply same_model_refl]. Qed.

Lemma stable_logger_error (p : string) (e : exn) : stable (logger_error p e).
Proof. intros s s' E. split; [reflexivity | apply (same_model_add_log [(p, e)])]. Qed.

Lemma stable_gets_data : stable (gets data).
Proof.
  intros s s' (Hd & _). split; [simpl; now rewrite Hd | apply same_model_refl].
Qed.

Lemma stable_gets_categories : stable (gets categories).
Proof.
  intros s s' (_ & Hc & _). split; [simpl; now rewrite Hc | apply same_model_refl].
Qed.

Lemma stable_gets_vectorizer : stable (gets vectorizer).
Proof.
  intros s s' (_ & _ & Hv). split; [simpl; now rewrite Hv | apply same_model_refl].
Qed.

Lemma stable_bind {A B : Type} (c : M A) (k : A -> M B) :
  stable c -> (forall a, stable (k a)) -> stable (bind c k).
Proof.
  intros Hc Hk s s' E. unfold bind.
  destruct (Hc s s' E) as [Hv Hs].
  destruct (Hc s' s' (same_model_refl s')) as [_ Hs'].
  destruct (c s) as [[a|e] s1], (c s') as [[a'|e'] s1']; simpl in *;
    try discriminate.
  - injection Hv as <-.
    assert (E1 : same_model s1 s1').
    { eapply same_model_trans; [apply same_model_sym, Hs|].
      eapply same_model_trans; [apply E | apply Hs']. }
    destruct (Hk a s1 s1' E1) as [Hv1 Hs1].
    split; [exact Hv1 | eapply same_model_trans; eassumption].
  - injection Hv as <-. split; [reflexivity | assumption].
Qed.

Lemma stable_try_except {A : Type} (body : M A) (handler : exn -> M A) :
  stable body -> (forall e, stable (handler e)) -> stable (try_except body handler).
Proof.
  intros Hc Hk s s' E. unfold try_except.
  destruct (Hc s s' E) as [Hv Hs].
  destruct (Hc s' s' (same_model_refl s')) as [_ Hs'].
  destruct (body s) as [[a|e] s1], (body s') as [[a'|e'] s1']; simpl in *;
    try discriminate.
  - split; assumption.
  - injection Hv as <-.
    assert (E1 : same_model s1 s1').
    { eapply same_model_trans; [apply same_model_sym, Hs|].
      eapply same_model_trans; [apply E | apply Hs']. }
    destruct (Hk e s1 s1' E1) as [Hv1 Hs1].
    split; [exact Hv1 | eapply same_model_trans; eassumption].
Qed.

Lemma stable_for_in {A S : Type} (l : list A) (body : A -> S -> M S) :
  (forall x s, stable (body x s)) -> forall s, stable (for_in l body s).
Proof.
  intros Hb. induction l as [|x l IH]; intros s; simpl.
  - apply stable_ret.
  - apply stable_bind; [apply Hb | exact IH].
Qed.

Lemma stable_data_getitem (category : string) : stable (data_getitem category).
Proof.
  unfold data_getitem. apply stable_bind; [apply stable_gets_data|].
  intros [d|]; [apply stable_call | apply stable_raise].
Qed.

Lemma stable_vectorizer_transform (doc : option string) :
  stable (vectorizer_transform doc).
Proof.
  unfold vectorizer_transform. apply stable_bind; [apply stable_gets_vectorizer|].
  intros [m|]; [destruct doc|]; first [apply stable_call | apply stable_raise].
Qed.

Lemma stable_clean_text (doc : option string) : stable (clean_text doc).
Proof.
  intros s s' E. rewrite !clean_text_run. simpl.
  split; [reflexivity | apply same_model_add_log].
Qed.

Lemma stable_tokenize_text (input_text : option string) :
  stable (tokenize_text input_text).
Proof.
  intros s s' E. rewrite !tokenize_text_run. simpl.
  split; [reflexivity | apply same_model_add_log].
Qed.

Lemma stable_get_text_theme (input_text : option string) :
  stable (get_text_theme input_text).
Proof.
  unfold get_text_theme. apply stable_try_except.
  - apply stable_bind; [apply stable_clean_text | intros clean].
    apply stable_bind; [apply stable_tokenize_text | intros tokenized].
    apply stable_bind; [apply stable_vectorizer_transform | intros input_vector].
    apply stable_bind; [apply stable_gets_categories | intros cats].
    apply stable_bind.
    + apply stable_for_in. intros category selected.
      apply stable_bind; [apply stable_data_getitem | intros themes].
      apply stable_for_in. intros theme selected'.
      apply stable_bind; [apply stable_data_getitem | intros themes'].
      apply stable_bind; [apply stable_call | intros category_phrases].
      apply stable_bind; [apply stable_vectorizer_transform | intros category_vector].
      apply stable_bind; [apply stable_call | intros similarity].
      destruct selected' as [[mx c] t].
      destruct (Qgtb similarity mx); apply stable_ret.
    + intros [[mx c] t]. apply stable_ret.
  - intros e. apply stable_bind; [apply stable_logger_error | intros _].
    apply stable_ret.
Qed.

(** ** Dictionaries *)

Lemma existsb_eqb_false (k k' : string) (l : list string) :
  existsb (String.eqb k) l = false -> In k' l -> String.eqb k k' = false.
Proof.
  induction l as [|x l IH]; simpl; [contradiction|].
  intros H [->|Hin]; apply orb_false_iff in H as [H1 H2]; auto.
Qed.

Lemma getitem_found {V : Type} (pre : dict V) (k : string) (v : V) (post : dict V) :
  distinct (keys (pre ++ (k, v) :: post)) = true ->
  getitem (pre ++ (k, v) :: post) k = Ok v.
Proof.
  unfold getitem. induction pre as [|[k' v'] pre IH]; simpl.
  - now rewrite String.eqb_refl.
  - intros H. apply andb_true_iff in H as [Hk Hd].
    apply negb_true_iff in Hk.
    rewrite (existsb_eqb_false k' k _ Hk).
    + now apply IH.
    + unfold keys. rewrite map_app. apply in_or_app. right. now left.
Qed.

Lemma distinct_app_r (l l' : list string) :
  distinct (l ++ l') = true -> distinct l' = true.
Proof.
  induction l as [|x l IH]; simpl; [trivial|].
  intros H. apply andb_true_iff in H as [_ H]. now apply IH.
Qed.

(** ** Loops *)

Lemma for_in_app {A S : Type} (l l' : list A) (body : A -> S -> M S) (s : S)
  (self : TextAnalyst) :
  for_in (l ++ l') body s self
  = bind (for_in l body s) (fun s' => for_in l' body s') self.
Proof.
  revert s self. induction l as [|x l IH]; intros s self; simpl.
  - reflexivity.
  - unfold bind in *.
    destruct (body x s self) as [[s1|e] self1]; [apply IH | reflexivity].
Qed.

Lemma for_in_map {A B S : Type} (g : A -> B) (l : list A) (body : B -> S -> M S)
  (s : S) (self : TextAnalyst) :
  for_in (map g l) body s self = for_in l (fun x => body (g x)) s self.
Proof.
  revert s self. induction l as [|x l IH]; intros s self; simpl.
  - reflexivity.
  - unfold bind.
    destruct (body (g x) s self) as [[s1|e] self1]; [apply IH | reflexivity].
Qed.

Lemma for_in_flat_map {A B S : Type} (g : A -> list B) (l : list A)
  (body : B -> S -> M S) (s : S) (self : TextAnalyst) :
  for_in (flat_map g l) body s self
  = for_in l (fun x s' => for_in (g x) body s') s self.
Proof.
  revert s self. induction l as [|x l IH]; intros s self; simpl.
  - reflexivity.
  - rewrite for_in_app. unfold bind.
    destruct (for_in (g x) body s self) as [[s1|e] self1]; [apply IH | reflexivity].
Qed.

Lemma for_in_data {A S : Type} (l : list A) (body : A -> S -> M S) :
  (forall x s self, data (snd (body x s self)) = data self) ->
  forall s self, data (snd (for_in l body s self)) = data self.
Proof.
  intros Hb. induction l as [|x l IH]; intros s self; simpl.
  - reflexivity.
  - unfold bind. specialize (Hb x s self).
    destruct (body x s self) as [[s1|e] self1]; simpl in Hb.
    + now rewrite IH.
    + exact Hb.
Qed.

Lemma bind_ext {A B : Type} (c c' : M A) (k k' : A -> M B) (self : TextAnalyst) :
  c self = c' self ->
  (forall a self1, c' self = (Ok a, self1) -> k a self1 = k' a self1) ->
  bind c k self = bind c' k' self.
Proof.
  intros Hc Hk. unfold bind. rewrite Hc.
  destruct (c' self) as [[a|e] self1]; [now apply Hk | reflexivity].
Qed.

Lemma data_getitem_run (d : taxonomy) (category : string) (self : TextAnalyst) :
  data self = Some d ->
  data_getitem category self = (getitem d category, self).
Proof.
  intros Hs. unfold data_getitem, bind, gets, call. simpl. now rewrite Hs.
Qed.

(** The lookups of one turn of the inner loop succeed on a theme of the
    category. *)
Lemma theme_turn {S : Type} (k : list string -> M S)
  (d : taxonomy) (category theme : string) (themes : dict (list string))
  (p : list string) (self : TextAnalyst) :
  data self = Some d ->
  getitem d category = Ok themes ->
  getitem themes theme = Ok p ->
  bind (data_getitem category) (fun themes' =>
  bind (call (getitem themes' theme)) k) self
  = k p self.
Proof.
  intros Hs Hc Ht. unfold bind at 1. rewrite (data_getitem_run d), Hc by exact Hs.
  unfold bind, call. now rewrite Ht.
Qed.

(** The nested traversal shared by [prepare_data] and [get_text_theme]:
    themes of one category, then categories, visit the triples of [pairs]. *)
Lemma traverse_themes {S : Type} (f : string -> string -> list string -> S -> M S)
  (d : taxonomy) (category : string) (themes : dict (list string)) :
  (forall c t p s self, data (snd (f c t p s self)) = data self) ->
  getitem d category = Ok themes ->
  distinct (keys themes) = true ->
  forall rest pre s self,
    themes = pre ++ rest -> data self = Some d ->
    for_in (keys rest)
      (fun theme s =>
         bind (data_getitem category) (fun themes' =>
         bind (call (getitem themes' theme)) (fun category_phrases =>
         f category theme category_phrases s)))
      s self
    = for_in rest (fun tp s => f category (fst tp) (snd tp) s) s self.
Proof.
  intros Hf Hc Hd. induction rest as [|[t p] rest IH]; intros pre s self E Hs.
  - reflexivity.
  - cbn [keys map for_in fst snd]. apply bind_ext.
    + apply (theme_turn (fun ph => f category t ph s) d category t themes p); trivial.
      rewrite E. apply getitem_found. now rewrite <- E.
    + intros s1 self1 H1. apply (IH (pre ++ [(t, p)])).
      * now rewrite <- app_assoc.
      * specialize (Hf category t p s self). rewrite H1 in Hf. simpl in Hf. congruence.
Qed.

Lemma traverse_pairs {S : Type} (f : string -> string -> list string -> S -> M S)
  (d : taxonomy) :
  (forall c t p s self, data (snd (f c t p s self)) = data self) ->
  well_formed d = true ->
  forall s self,
    data self = Some d ->
    for_in (keys d)
      (fun category s =>
         bind (data_getitem category) (fun themes =>
         for_in (keys themes)
           (fun theme s =>
              bind (data_getitem category) (fun themes' =>
              bind (call (getitem themes' theme)) (fun category_phrases =>
              f category theme category_phrases s)))
           s))
      s self
    = for_in (pairs d)
        (fun ctp s => f (fst (fst ctp)) (snd (fst ctp)) (snd ctp) s) s self.
Proof.
  intros Hf Hwf. apply andb_true_iff in Hwf as [Hk Hthemes].
  enough (G : forall rest pre s self,
             d = pre ++ rest -> data self = Some d ->
             for_in (keys rest)
               (fun category s =>
                  bind (data_getitem category) (fun themes =>
                  for_in (keys themes)
                    (fun theme s =>
                       bind (data_getitem category) (fun themes' =>
                       bind (call (getitem themes' theme)) (fun category_phrases =>
                       f category theme category_phrases s)))
                    s))
               s self
             = for_in (pairs rest)
                 (fun ctp s => f (fst (fst ctp)) (snd (fst ctp)) (snd ctp) s) s self).
  { intros s self Hs. now apply (G d []). }
  induction rest as [|[c themes] rest IH]; intros pre s self E Hs.
  - reflexivity.
  - assert (Hc : getitem d c = Ok themes).
    { rewrite E. apply getitem_found. now rewrite <- E. }
    assert (Hd : distinct (keys themes) = true).
    { rewrite forallb_forall in Hthemes.
      apply (Hthemes (c, themes)). rewrite E. apply in_or_app. right. now left. }
    change (pairs ((c, themes) :: rest))
      with (map (fun tp => (c, fst tp, snd tp)) themes ++ pairs rest).
    rewrite for_in_app.
    cbn [keys map for_in fst]. apply bind_ext.
    + unfold bind at 1. rewrite (data_getitem_run d), Hc by exact Hs.
      rewrite (traverse_themes f d c themes Hf Hc Hd themes [] s self eq_refl Hs).
      now rewrite for_in_map.
    + intros s1 self1 H1. apply (IH (pre ++ [(c, themes)])).
      * now rewrite <- app_assoc.
      * pose proof (for_in_data (map (fun tp => (c, fst tp, snd tp)) themes)
                      (fun ctp s => f (fst (fst ctp)) (snd (fst ctp)) (snd ctp) s)
                      (fun x s0 self0 => Hf _ _ _ s0 self0) s self) as Hdata.
        rewrite H1 in Hdata. simpl in Hdata. congruence.
Qed.

(** ** Classification as one pass over the pairs *)

Lemma bind_ok {A B : Type} (c : M A) (k : A -> M B) (a : A) (self self1 : TextAnalyst) :
  c self = (Ok a, self1) -> bind c k self = k a self1.
Proof. intros H. unfold bind. now rewrite H. Qed.

Lemma bind_raise {A B : Type} (c : M A) (k : A -> M B) (e : exn)
  (self self1 : TextAnalyst) :
  c self = (Raise e, self1) -> bind c k self = (Raise e, self1).
Proof. intros H. unfold bind. now rewrite H. Qed.

Lemma theme_turn_body_run (input_vector : vector) (c t : string) (p : list string)
  (sel : Q * string * string) (self : TextAnalyst) :
  theme_turn_body input_vector c t p sel self
  = (res_bind (theme_vector (vectorizer self) p) (fun category_vector =>
     res_bind (cosine_similarity input_vector category_vector) (fun similarity =>
     Ok (update sel c t similarity))), self).
Proof.
  unfold theme_turn_body, theme_vector, bind.
  rewrite vectorizer_transform_run.
  destruct (transform_doc (vectorizer self) (Some (join " " p))) as [cv|e]; simpl;
    [|reflexivity].
  unfold call. destruct (cosine_similarity input_vector cv) as [sim|e]; simpl;
    [|reflexivity].
  destruct sel as [[mx c0] t0]. unfold update.
  now destruct (Qgtb sim mx).
Qed.

Lemma scan_loop (input_vector : vector) (ps : list (string * string * list string))
  (sel : Q * string * string) (self : TextAnalyst) :
  for_in ps
    (fun ctp s => theme_turn_body input_vector (fst (fst ctp)) (snd (fst ctp)) (snd ctp) s)
    sel self
  = (scan (theme_vector (vectorizer self)) input_vector ps sel, self).
Proof.
  revert sel. induction ps as [|[[c t] p] ps IH]; intros sel; simpl.
  - reflexivity.
  - unfold bind. rewrite theme_turn_body_run.
    destruct (theme_vector (vectorizer self) p) as [cv|e]; simpl; [|reflexivity].
    destruct (cosine_similarity input_vector cv) as [sim|e]; simpl; [|reflexivity].
    apply IH.
Qed.

(** The whole run of [get_text_theme] on an object whose [categories] are
    the keys of its well-formed taxonomy. *)
Lemma get_text_theme_run (d : taxonomy) (input_text : option string)
  (self : TextAnalyst) :
  well_formed d = true ->
  data self = Some d ->
  categories self = keys d ->
  get_text_theme input_text self
  = match classify (theme_vector (vectorizer self)) (vectorizer self) d input_text with
    | Ok sel => (Ok (reply (Ok sel)), add_log (input_log input_text) self)
    | Raise e =>
        (Ok error_reply,
         add_log (input_log input_text
                  ++ [("Произошла ошибка при классификации текста", e)]) self)
    end.
Proof.
  intros Hwf Hd Hc.
  unfold get_text_theme, try_except, classify, input_document, input_log.
  erewrite bind_ok by apply clean_text_run.
  erewrite bind_ok by apply tokenize_text_run.
  rewrite add_log_app.
  set (self1 := add_log _ self).
  set (doc := fst (tokenize_outcome _)).
  assert (Hv : vectorizer self1 = vectorizer self) by reflexivity.
  assert (Hd1 : data self1 = Some d) by exact Hd.
  unfold bind at 1. rewrite vectorizer_transform_run, Hv.
  destruct (transform_doc (vectorizer self) doc) as [vin|e]; simpl.
  2:{ unfold logger_error, bind, ret, self1, add_log. simpl. now rewrite <- !app_assoc. }
  erewrite bind_ok by reflexivity.
  change (categories self1) with (categories self). rewrite Hc.
  unfold bind at 1.
  rewrite (traverse_pairs (theme_turn_body vin) d) by
    (trivial; intros; now rewrite theme_turn_body_run).
  rewrite scan_loop, Hv.
  destruct (scan (theme_vector (vectorizer self)) vin (pairs d) (0%Q, "", ""))
    as [[[mx c] t]|e]; simpl.
  - reflexivity.
  - unfold logger_error, bind, ret, self1, add_log. simpl. now rewrite <- !app_assoc.
Qed.

(** ** The selection *)

Lemma Qgtb_true (x y : Q) : Qgtb x y = true <-> (y < x)%Q.
Proof.
  unfold Qgtb. rewrite Qlt_alt.
  destruct (y ?= x)%Q; split; intros H; congruence.
Qed.

Lemma Qgtb_false (x y : Q) : Qgtb x y = false <-> (x <= y)%Q.
Proof.
  rewrite <- not_true_iff_false, Qgtb_true. split.
  - apply Qnot_lt_le.
  - intros H H'. exact (Qlt_not_le _ _ H' H).
Qed.

Lemma scan_scored (tv : list string -> res vector) (input_vector : vector)
  (ps : list (string * string * list string)) (sel : Q * string * string) :
  scan tv input_vector ps sel
  = res_bind (scored tv input_vector ps) (fun l => Ok (best l sel)).
Proof.
  unfold scored.
  revert sel. induction ps as [|[[c t] p] ps IH]; intros sel; simpl.
  - reflexivity.
  - destruct (tv p) as [cv|e]; simpl; [|reflexivity].
    destruct (cosine_similarity input_vector cv) as [sim|e]; simpl; [|reflexivity].
    rewrite IH.
    destruct (res_map _ ps) as [l|e]; reflexivity.
Qed.

(** Scores that do not exceed the current maximum change nothing. *)
Lemma best_keeps (l : list (string * string * Q)) (mx : Q) (c t : string) :
  Forall (fun cts => (snd cts <= mx)%Q) l ->
  best l (mx, c, t) = (mx, c, t).
Proof.
  induction 1 as [|[[c' t'] s] l Hs _ IH]; simpl; [reflexivity|].
  simpl in Hs. apply Qgtb_false in Hs. now rewrite Hs.
Qed.

(** Scores below [s] leave the maximum below [s]. *)
Lemma best_below (l : list (string * string * Q)) (s : Q) :
  Forall (fun cts => (snd cts < s)%Q) l ->
  forall sel, (fst (fst sel) < s)%Q -> (fst (fst (best l sel)) < s)%Q.
Proof.
  induction 1 as [|[[c' t'] s'] l Hs _ IH]; intros [[mx c] t] Hmx; simpl in *.
  - exact Hmx.
  - apply IH. destruct (Qgtb s' mx); assumption.
Qed.

Lemma best_app (l l' : list (string * string * Q)) (sel : Q * string * string) :
  best (l ++ l') sel = best l' (best l sel).
Proof. unfold best. apply fold_left_app. Qed.

(** The first pair that reaches the maximum is selected. *)
Lemma best_first (before after : list (string * string * Q)) (c t : string) (s : Q)
  (sel : Q * string * string) :
  (fst (fst sel) < s)%Q ->
  Forall (fun cts => (snd cts < s)%Q) before ->
  Forall (fun cts => (snd cts <= s)%Q) after ->
  best (before ++ (c, t, s) :: after) sel = (s, c, t).
Proof.
  intros Hsel Hb Ha. rewrite best_app.
  pose proof (best_below before s Hb sel Hsel) as Hmx.
  destruct (best before sel) as [[mx c0] t0]. simpl in Hmx.
  change (best ((c, t, s) :: after) (mx, c0, t0))
    with (best after (update (mx, c0, t0) c t s)).
  unfold update. apply Qgtb_true in Hmx. rewrite Hmx.
  now apply best_keeps.
Qed.

(** Either nothing exceeds the current maximum and the selection stands,
    or a pair with a greater score is selected. *)
Lemma best_cases (l : list (string * string * Q)) (mx : Q) (c t : string) :
  (Forall (fun cts => (snd cts <= mx)%Q) l /\ best l (mx, c, t) = (mx, c, t))
  \/ (exists c' t' s, In (c', t', s) l /\ (mx < s)%Q /\ best l (mx, c, t) = (s, c', t')).
Proof.
  revert mx c t. induction l as [|[[c1 t1] s1] l IH]; intros mx c t.
  - left. split; [constructor | reflexivity].
  - change (best ((c1, t1, s1) :: l) (mx, c, t))
      with (best l (update (mx, c, t) c1 t1 s1)).
    unfold update. destruct (Qgtb s1 mx) eqn:Hg.
    + apply Qgtb_true in Hg. right.
      destruct (IH s1 c1 t1) as [[_ E]|(c' & t' & s & Hin & Hlt & E)].
      * exists c1, t1, s1. repeat split; [now left | assumption | assumption].
      * exists c', t', s. repeat split; [now right | | assumption].
        now apply Qlt_trans with s1.
    + apply Qgtb_false in Hg.
      destruct (IH mx c t) as [[Hall E]|(c' & t' & s & Hin & Hlt & E)].
      * left. split; [now constructor | assumption].
      * right. exists c', t', s. repeat split; [now right | assumption | assumption].
Qed.

(** ** Fitting *)

Lemma tokenize_loop (l : list string) (documents : list string) (self : TextAnalyst) :
  for_in l
    (fun n_gram documents =>
       bind (call (word_tokenize n_gram)) (fun n_gram_tokens =>
       let n_gram_unigrams := join " " n_gram_tokens in
       ret (documents ++ [n_gram_unigrams])))
    documents self
  = (res_bind (res_map word_tokenize l)
       (fun tokens => Ok (documents ++ map (join " ") tokens)), self).
Proof.
  revert documents. induction l as [|n_gram l IH]; intros documents; simpl.
  - unfold ret. now rewrite app_nil_r.
  - unfold bind at 1. unfold bind at 1. unfold call, ret.
    destruct (word_tokenize n_gram) as [toks|e]; simpl; [|reflexivity].
    rewrite IH. destruct (res_map word_tokenize l) as [ts|e]; simpl; [|reflexivity].
    now rewrite <- app_assoc.
Qed.

Lemma prepare_data_run (d : taxonomy) (self : TextAnalyst) :
  well_formed d = true ->
  data self = Some d ->
  categories self = keys d ->
  prepare_data self = (Ok (fit_documents d), add_log (prepare_log d) self).
Proof.
  intros Hwf Hd Hc. unfold prepare_data, try_except, fit_documents, prepare_log.
  erewrite bind_ok by reflexivity. rewrite Hc.
  unfold bind at 1.
  rewrite (traverse_pairs
             (fun _ _ category_phrases documents =>
                for_in category_phrases
                  (fun n_gram documents =>
                     bind (call (word_tokenize n_gram)) (fun n_gram_tokens =>
                     let n_gram_unigrams := join " " n_gram_tokens in
                     ret (documents ++ [n_gram_unigrams])))
                  documents) d)
    by (trivial; intros; now rewrite tokenize_loop).
  rewrite <- (for_in_flat_map (fun ctp => snd ctp)).
  fold (phrases d). rewrite tokenize_loop.
  destruct (res_map word_tokenize (phrases d)) as [ts|e]; simpl.
  - unfold ret. now rewrite add_log_nil.
  - reflexivity.
Qed.

Lemma train_vectorizer_run (documents : option (list string)) (self : TextAnalyst) :
  train_vectorizer documents self = (Ok tt, trained documents self).
Proof.
  unfold train_vectorizer, try_except, trained, train_outcome.
  destruct documents as [[|doc docs]|]; simpl; try reflexivity.
  unfold vectorizer_fit_transform, bind, call, set_vectorizer.
  destruct (fit_transform (doc :: docs)) as [m|e]; simpl.
  - now rewrite app_nil_r.
  - reflexivity.
Qed.

Lemma load_data_ok (d : taxonomy) (self : TextAnalyst) :
  load_data (Ok d) self = (Ok (Some d), self).
Proof. reflexivity. Qed.

(** The constructor on a parsed, well-formed taxonomy. *)
Lemma new_TextAnalyst_run (d : taxonomy) :
  well_formed d = true ->
  new_TextAnalyst (Ok d)
  = Ok {| logger := prepare_log d ++ snd (train_outcome (fit_documents d));
          data := Some d;
          categories := keys d;
          vectorizer := fst (train_outcome (fit_documents d)) |}.
Proof.
  intros Hwf. unfold new_TextAnalyst, __init__.
  repeat (erewrite bind_ok by reflexivity).
  erewrite bind_ok by (apply (prepare_data_run d); trivial).
  rewrite train_vectorizer_run. unfold trained, add_log. simpl.
  now destruct (fst (train_outcome (fit_documents d))).
Qed.

Lemma bind_inv_ok {A B : Type} (c : M A) (k : A -> M B) (b : B)
  (self self' : TextAnalyst) :
  bind c k self = (Ok b, self') ->
  exists a self1, c self = (Ok a, self1) /\ k a self1 = (Ok b, self').
Proof.
  unfold bind. destruct (c self) as [[a|e] self1]; intros H.
  - now exists a, self1.
  - discriminate.
Qed.

Lemma same_model_serve (inputs : list (option string)) (self : TextAnalyst) :
  same_model self (snd (serve inputs self)).
Proof.
  revert self. induction inputs as [|input_text inputs IH]; intros self; simpl.
  - apply same_model_refl.
  - pose proof (stable_get_text_theme input_text self self (same_model_refl self))
      as [_ H1].
    destruct (get_text_theme input_text self) as [r self1]. simpl in H1.
    specialize (IH self1). destruct (serve inputs self1) as [rs self2].
    simpl in *. eapply same_model_trans; eassumption.
Qed.

(** An un-fitted vectorizer makes every classification fail in [transform]. *)
Lemma unfitted_reply (input_text : option string) (self : TextAnalyst) :
  vectorizer self = None ->
  fst (get_text_theme input_text self) = Ok error_reply.
Proof.
  intros Hv. unfold get_text_theme, try_except.
  erewrite bind_ok by apply clean_text_run.
  erewrite bind_ok by apply tokenize_text_run.
  erewrite bind_raise.
  2:{ rewrite vectorizer_transform_run. simpl. rewrite Hv. reflexivity. }
  reflexivity.
Qed.

Lemma kept_all_skipped (doc : list Token) :
  forallb skipped doc = true -> kept doc = [].
Proof.
  unfold kept. induction doc as [|token doc IH]; simpl; [reflexivity|].
  intros H. apply andb_true_iff in H as [Ht Hd]. rewrite Ht. simpl. now apply IH.
Qed.

(** A text that normalises to the empty string is answered with the error
    object, fitted or not. *)
Lemma empty_clean_reply (input_text : option string) (self : TextAnalyst) :
  fst (clean_outcome input_text) = "" ->
  fst (get_text_theme input_text self) = Ok error_reply.
Proof.
  intros Hclean. unfold get_text_theme, try_except.
  erewrite bind_ok by apply clean_text_run.
  erewrite bind_ok by apply tokenize_text_run.
  rewrite Hclean. cbn [tokenize_outcome not_text fst snd].
  unfold bind at 1. rewrite vectorizer_transform_run. unfold transform_doc.
  now destruct (vectorizer _).
Qed.

(** ** The claims *)

(** C1 (amended).  When spaCy yields no token for the empty string,
    [get_text_theme("")] does not return the no-match sentinel: the empty
    normalised text makes [tokenize_text] return [None], [transform]
    raises on it, and the error object is returned.  The call never
    raises, logs two records, leaves taxonomy and model as they were, and
    later calls return what they would have returned without it. *)
Theorem empty_input_reports_error (self : TextAnalyst) (later : option string) :
  nlp "" = Ok [] ->
  get_text_theme (Some "") self
  = (Ok error_reply,
     add_log
       [("Произошла ошибка при токенизации текста", ValueError "Входной текст пуст.");
        ("Произошла ошибка при классификации текста",
         match vectorizer self with
         | Some _ => AttributeError "'NoneType' object has no attribute 'lower'"
         | None => NotFittedError "The TF-IDF vectorizer is not fitted"
         end)]
       self)
  /\ fst (get_text_theme later (snd (get_text_theme (Some "") self)))
     = fst (get_text_theme later self).
Proof.
  intros Hnlp. split.
  - unfold get_text_theme, try_except.
    erewrite bind_ok by apply clean_text_run.
    erewrite bind_ok by apply tokenize_text_run.
    unfold clean_outcome. rewrite Hnlp.
    change (fst (join " " (kept []), @nil log_record)) with "".
    change (snd (join " " (kept []), @nil log_record)) with (@nil log_record).
    rewrite add_log_nil. unfold bind at 1. rewrite vectorizer_transform_run.
    unfold logger_error, bind, ret, add_log, transform_doc. simpl.
    destruct (vectorizer self); simpl; now rewrite <- app_assoc.
  - apply (stable_get_text_theme later). apply same_model_sym.
    apply (stable_get_text_theme (Some "") self self), same_model_refl.
Qed.

(** C2 (amended).  When the taxonomy holds no phrase, so that the fit-time
    document list is empty, the constructor returns normally: the empty
    list is rejected before any fit is attempted, the [ValueError] is
    logged by [train_vectorizer] itself and not raised to the caller, and
    the object is left with an un-fitted vectorizer, on which every
    classification returns the error object.  The same holds of
    [train_vectorizer] on any empty or missing document list. *)
Theorem empty_corpus_is_logged_not_raised (d : taxonomy) (input_text : option string) :
  well_formed d = true ->
  phrases d = [] ->
  let self := {| logger := [("Произошла ошибка при обучении векторизатора",
                             ValueError "Список униграмм пуст.")];
                 data := Some d;
                 categories := keys d;
                 vectorizer := None |} in
  new_TextAnalyst (Ok d) = Ok self
  /\ fst (get_text_theme input_text self) = Ok error_reply
  /\ (forall documents self0,
        not_documents documents = true ->
        train_vectorizer documents self0
        = (Ok tt, add_log [("Произошла ошибка при обучении векторизатора",
                            ValueError "Список униграмм пуст.")] self0)).
Proof.
  intros Hwf Hp self. repeat split.
  - rewrite new_TextAnalyst_run by exact Hwf.
    unfold prepare_log, fit_documents. now rewrite Hp.
  - now apply unfitted_reply.
  - intros documents self0 Hn. rewrite train_vectorizer_run.
    unfold trained, train_outcome, add_log.
    destruct documents as [[|doc docs]|]; try discriminate; reflexivity.
Qed.

(** C3 (amended).  Every fit-time document is exactly one taxonomy phrase
    passed through the generic tokenizer and joined by single spaces; the
    linguistic normalisation is not applied at fit time.  [prepare_data]
    returns these documents in taxonomy order (or [None] when the
    tokenizer raises), and the constructor fits the vectorizer on them. *)
Theorem fit_documents_are_tokenized_phrases (d : taxonomy) (self : TextAnalyst) :
  well_formed d = true ->
  data self = Some d ->
  categories self = keys d ->
  fst (prepare_data self)
  = Ok match res_map word_tokenize (phrases d) with
       | Ok tokens => Some (map (fun n_gram_tokens => join " " n_gram_tokens) tokens)
       | Raise _ => None
       end
  /\ exists records,
      new_TextAnalyst (Ok d)
      = Ok {| logger := records;
              data := Some d;
              categories := keys d;
              vectorizer :=
                match fit_documents d with
                | Some (doc :: docs) =>
                    match fit_transform (doc :: docs) with
                    | Ok m => Some m
                    | Raise _ => None
                    end
                | _ => None
                end |}.
Proof.
  intros Hwf Hd Hc. split.
  - now rewrite (prepare_data_run d).
  - eexists. rewrite new_TextAnalyst_run by exact Hwf. do 2 f_equal.
    unfold train_outcome.
    destruct (fit_documents d) as [[|doc docs]|]; try reflexivity.
    now destruct (fit_transform (doc :: docs)).
Qed.

(** C4 (amended).  For every (category, theme) pair examined, the theme
    vector is [transform] of the theme text itself: all phrases of the
    theme joined by single spaces, with neither the normalisation nor the
    tokenize pass applied.  The reply is the one of a single pass over the
    pairs with these vectors. *)
Theorem theme_vector_is_transform_of_joined_phrases (d : taxonomy)
  (input_text : option string) (self : TextAnalyst) :
  well_formed d = true ->
  data self = Some d ->
  categories self = keys d ->
  fst (get_text_theme input_text self)
  = Ok (reply (classify
                 (fun category_phrases =>
                    transform_doc (vectorizer self) (Some (join " " category_phrases)))
                 (vectorizer self) d input_text)).
Proof.
  intros Hwf Hd Hc. rewrite (get_text_theme_run d) by assumption.
  fold (theme_vector (vectorizer self)).
  now destruct (classify (theme_vector (vectorizer self)) (vectorizer self) d input_text).
Qed.

(** C5.  The maximum is tracked with a strictly-greater update over the
    pairs in (category, theme) insertion order: a pair whose similarity is
    positive, greater than every earlier one and not exceeded by any later
    one is the pair returned, so among equal scores the first wins.  In
    particular, on the taxonomy
    [{"A": {"t1": ["красная машина"]}, "B": {"t2": ["красная машина"]}}]
    the input "красная машина", whose similarity to that theme text is
    positive, is classified as category "A", theme "t1". *)
Theorem first_maximum_wins :
  (forall (d : taxonomy) (input_text : option string) (self : TextAnalyst)
          (input_vector : vector) (before after : list (string * string * Q))
          (category theme : string) (similarity : Q),
      well_formed d = true ->
      data self = Some d ->
      categories self = keys d ->
      transform_doc (vectorizer self) (input_document input_text) = Ok input_vector ->
      scored (theme_vector (vectorizer self)) input_vector (pairs d)
      = Ok (before ++ (category, theme, similarity) :: after) ->
      (0 < similarity)%Q ->
      Forall (fun cts => (snd cts < similarity)%Q) before ->
      Forall (fun cts => (snd cts <= similarity)%Q) after ->
      fst (get_text_theme input_text self)
      = Ok (Dumps false [("category", category); ("theme", theme)]))
  /\ (forall (self : TextAnalyst) (input_vector category_vector : vector)
             (similarity : Q),
        data self = Some taxonomy_tie ->
        categories self = ["A"; "B"] ->
        transform_doc (vectorizer self) (input_document (Some "красная машина"))
        = Ok input_vector ->
        transform_doc (vectorizer self) (Some "красная машина") = Ok category_vector ->
        cosine_similarity input_vector category_vector = Ok similarity ->
        (0 < similarity)%Q ->
        fst (get_text_theme (Some "красная машина") self)
        = Ok (Dumps false [("category", "A"); ("theme", "t1")])).
Proof.
  assert (G : forall (d : taxonomy) (input_text : option string) (self : TextAnalyst)
                     (input_vector : vector) (before after : list (string * string * Q))
                     (category theme : string) (similarity : Q),
             well_formed d = true ->
             data self = Some d ->
             categories self = keys d ->
             transform_doc (vectorizer self) (input_document input_text)
             = Ok input_vector ->
             scored (theme_vector (vectorizer self)) input_vector (pairs d)
             = Ok (before ++ (category, theme, similarity) :: after) ->
             (0 < similarity)%Q ->
             Forall (fun cts => (snd cts < similarity)%Q) before ->
             Forall (fun cts => (snd cts <= similarity)%Q) after ->
             fst (get_text_theme input_text self)
             = Ok (Dumps false [("category", category); ("theme", theme)])).
  { intros d input_text self input_vector before after category theme similarity
           Hwf Hd Hc Hvin Hsc Hpos Hb Ha.
    rewrite (get_text_theme_run d) by assumption.
    unfold classify. rewrite Hvin. cbn [res_bind].
    rewrite scan_scored, Hsc. cbn [res_bind].
    now rewrite best_first. }
  split; [exact G|].
  intros self input_vector category_vector similarity Hd Hc Hvin Hcv Hcos Hpos.
  apply (G taxonomy_tie _ self input_vector [] [("B", "t2", similarity)]
           "A" "t1" similarity);
    trivial.
  - unfold scored, theme_vector. simpl.
    change (join " " ["красная машина"]) with "красная машина".
    rewrite Hcv. simpl. now rewrite Hcos.
  - constructor; [apply Qle_refl | constructor].
Qed.

(** C6 (amended).  A pair is selected only if its similarity is strictly
    greater than 0.  When the input vector and the similarities are
    computed (a fitted model and a normalised input text that is not
    empty), either no pair exceeds 0 and the reply is the no-match
    sentinel, returned normally and different from the error object, or
    the reply names a pair of the taxonomy whose similarity is positive.
    When the normalised input text is empty (only numerals, punctuation
    or stop words), the reply is the error object and not the sentinel,
    although no pair exceeds 0. *)
Theorem selection_requires_positive_similarity (d : taxonomy)
  (input_text : option string) (self : TextAnalyst) :
  well_formed d = true ->
  data self = Some d ->
  categories self = keys d ->
  no_match <> error_reply
  /\ (forall (input_vector : vector) (l : list (string * string * Q)),
        transform_doc (vectorizer self) (input_document input_text) = Ok input_vector ->
        scored (theme_vector (vectorizer self)) input_vector (pairs d) = Ok l ->
        (Forall (fun cts => (snd cts <= 0)%Q) l
         /\ fst (get_text_theme input_text self) = Ok no_match)
        \/ (exists category theme similarity,
              In (category, theme, similarity) l /\ (0 < similarity)%Q
              /\ fst (get_text_theme input_text self)
                 = Ok (Dumps false [("category", category); ("theme", theme)])))
  /\ (fst (clean_text input_text self) = Ok "" ->
      fst (get_text_theme input_text self) = Ok error_reply).
Proof.
  intros Hwf Hd Hc. split; [discriminate|]. split.
  - intros input_vector l Hvin Hsc.
    rewrite (get_text_theme_run d) by assumption.
    unfold classify. rewrite Hvin. cbn [res_bind].
    rewrite scan_scored, Hsc. cbn [res_bind].
    destruct (best_cases l 0%Q "" "") as [[Hall E]|(c & t & s & Hin & Hlt & E)];
      rewrite E.
    + left. now split.
    + right. exists c, t, s. now repeat split.
  - rewrite clean_text_run. cbn [fst]. intros [= Hclean].
    now apply empty_clean_reply.
Qed.

(** C7.  For every input, [get_text_theme] returns, and what it returns is
    the JSON text of an object with exactly the string members "category"
    and "theme", or of the error object with the single string member
    "error"; [check_url] receives this text and puts it in the response.
    On an object built by the constructor the first is returned on
    success, with the names selected by the pass over the taxonomy, and
    the second on failure, that is when a library call of the [try] block
    raises, the exception being logged. *)
Theorem reply_shape (input_text : option string) (self : TextAnalyst) (d : taxonomy) :
  (exists report self',
      get_text_theme input_text self = (Ok report, self')
      /\ (report = Dumps true [("error", "Произошла ошибка при классификации текста.")]
          \/ exists category theme : string,
               report = Dumps false [("category", category); ("theme", theme)])
      /\ check_url input_text self = (Ok (DumpsStr false report), self'))
  /\ (well_formed d = true ->
      data self = Some d ->
      categories self = keys d ->
      match classify (theme_vector (vectorizer self)) (vectorizer self) d input_text with
      | Ok (_, selected_category, selected_theme) =>
          get_text_theme input_text self
          = (Ok (Dumps false [("category", selected_category);
                              ("theme", selected_theme)]),
             add_log (input_log input_text) self)
      | Raise e =>
          get_text_theme input_text self
          = (Ok (Dumps true [("error", "Произошла ошибка при классификации текста.")]),
             add_log (input_log input_text
                      ++ [("Произошла ошибка при классификации текста", e)]) self)
      end).
Proof.
  split.
  - enough (G : exists report self',
               get_text_theme input_text self = (Ok report, self')
               /\ (report = error_reply
                   \/ exists category theme : string,
                        report = Dumps false [("category", category); ("theme", theme)])).
    { destruct G as (report & self' & E & Hshape).
      exists report, self'. repeat split; trivial.
      unfold check_url. now rewrite (bind_ok _ _ _ _ _ E). }
    unfold get_text_theme, try_except.
    match goal with |- context [match ?body self with _ => _ end] =>
      destruct (body self) as [[report|e] self1] eqn:E
    end.
    + exists report, self1. split; [reflexivity|]. right.
      apply bind_inv_ok in E as (clean & s1 & _ & E).
      apply bind_inv_ok in E as (tokenized & s2 & _ & E).
      apply bind_inv_ok in E as (input_vector & s3 & _ & E).
      apply bind_inv_ok in E as (cats & s4 & _ & E).
      apply bind_inv_ok in E as ([[mx c] t] & s5 & _ & E).
      injection E as <- _. now exists c, t.
    + eexists _, _. split; [reflexivity|]. now left.
  - intros Hwf Hd Hc. rewrite (get_text_theme_run d) by assumption.
    now destruct (classify _ _ d input_text) as [[[mx c] t]|e].
Qed.

(** C8 (amended).  [clean_text] discards a token if and only if it is a
    stop word, or punctuation, or its surface form is numeric, or its
    surface form is not alphanumeric, or its surface form is the string
    "nan" of the exclusion list (the test is on the token text, not on
    the lower-cased lemma).  The result is the lower-cased, stripped
    lemmas of the surviving tokens, in order, joined by single spaces. *)
Theorem clean_text_discards_by_surface_form (s : string) (doc : list Token)
  (token : Token) (self : TextAnalyst) :
  nlp s = Ok doc ->
  (skipped token = true
   <-> is_stop token = true \/ is_punct token = true
       \/ isnumeric (text token) = true \/ isalnum (text token) = false
       \/ text token = "nan")
  /\ clean_text (Some s) self
     = (Ok (join " " (map (fun token => strip (lower (lemma_ token)))
                          (filter (fun token => negb (skipped token)) doc))),
        self).
Proof.
  intros Hnlp. split.
  - unfold skipped, exclusion_list. cbn [existsb].
    rewrite orb_false_r, !orb_true_iff, String.eqb_eq.
    destruct (isalnum (text token)); simpl; intuition congruence.
  - rewrite clean_text_run. unfold clean_outcome. rewrite Hnlp.
    cbn [fst snd]. now rewrite add_log_nil.
Qed.

(** C9.  [get_text_theme] is deterministic: its reply depends on the
    input text, the taxonomy and the fitted model only, and no request
    changes the taxonomy or the model, so a text classified again after
    any sequence of requests on the shared object gets the same reply. *)
Theorem classification_is_deterministic (inputs : list (option string))
  (input_text : option string) (self : TextAnalyst) :
  fst (get_text_theme input_text (snd (serve inputs self)))
  = fst (get_text_theme input_text self)
  /\ fst (get_text_theme input_text (snd (get_text_theme input_text self)))
     = fst (get_text_theme input_text self)
  /\ same_model self (snd (serve inputs self)).
Proof.
  repeat split; try apply same_model_serve.
  - apply (stable_get_text_theme input_text), same_model_sym, same_model_serve.
  - apply (stable_get_text_theme input_text), same_model_sym.
    apply (stable_get_text_theme input_text self self), same_model_refl.
Qed.

(** C10.  [tokenize_text] returns [None] for [None] and for the empty
    string; hence, whenever the normalised input text is empty, the
    document handed to [transform] is [None], and on a fitted vectorizer
    the reply is the error object, the [AttributeError] of [transform] on
    [None] being logged after the [ValueError] of [tokenize_text]. *)
Theorem empty_text_is_tokenized_to_None (input_text : option string)
  (self : TextAnalyst) :
  (fst (tokenize_text None self) = Ok None
   /\ fst (tokenize_text (Some "") self) = Ok None)
  /\ (fst (clean_text input_text self) = Ok "" ->
      fst (bind (clean_text input_text) (fun clean => tokenize_text (Some clean)) self)
      = Ok None
      /\ input_document input_text = None
      /\ forall m, vectorizer self = Some m ->
           get_text_theme input_text self
           = (Ok error_reply,
              add_log
                (snd (clean_outcome input_text)
                 ++ [("Произошла ошибка при токенизации текста",
                      ValueError "Входной текст пуст.");
                     ("Произошла ошибка при классификации текста",
                      AttributeError "'NoneType' object has no attribute 'lower'")])
                self)).
Proof.
  split; [split; reflexivity|].
  rewrite clean_text_run. cbn [fst]. intros Hclean.
  injection Hclean as Hclean.
  assert (Hdoc : input_document input_text = None).
  { unfold input_document. now rewrite Hclean. }
  repeat split.
  - erewrite bind_ok by apply clean_text_run.
    rewrite tokenize_text_run. cbn [fst]. f_equal. exact Hdoc.
  - exact Hdoc.
  - intros m Hm. unfold get_text_theme, try_except.
    erewrite bind_ok by apply clean_text_run.
    erewrite bind_ok by apply tokenize_text_run.
    fold (input_document input_text). rewrite Hdoc, Hclean.
    unfold bind at 1. rewrite vectorizer_transform_run.
    cbn [tokenize_outcome not_text snd]. rewrite add_log_app.
    unfold transform_doc. cbn [add_log vectorizer]. rewrite Hm.
    unfold logger_error, bind, ret, add_log. simpl. now rewrite <- !app_assoc.
Qed.

End Properties.

(** * Runs on the reference implementation *)

Section Runs.

#[local] Existing Instance Ref.str.
#[local] Existing Instance Ref.nltk.
#[local] Existing Instance Ref.spacy.
#[local] Existing Instance Ref.sklearn.

(** C1, as stated, fails: the empty string is answered with the error
    object, which is not the no-match sentinel. *)
Lemma empty_input_is_not_no_match :
  fst (get_text_theme (Some "") (RefData.built taxonomy_tie)) = Ok error_reply
  /\ error_reply <> no_match.
Proof. split; [reflexivity | discriminate]. Qed.

Lemma empty_input_reports_error_run :
  nlp "" = Ok []
  /\ fst (get_text_theme (Some "") (RefData.built taxonomy_tie)) = Ok error_reply
  /\ fst (get_text_theme (Some "красная машина")
            (snd (get_text_theme (Some "") (RefData.built taxonomy_tie))))
     = Ok (Dumps false [("category", "A"); ("theme", "t1")]).
Proof.
  pose proof (empty_input_reports_error (RefData.built taxonomy_tie)
                (Some "красная машина") eq_refl) as [E1 E2].
  split; [reflexivity|]. split.
  - rewrite E1. reflexivity.
  - rewrite E2. reflexivity.
Defined.

(** C2, as stated, fails: on a taxonomy without phrases the constructor
    returns an object, nothing is raised to the caller, and the un-fitted
    vectorizer is then used by [get_text_theme], whose [transform] raises
    [NotFittedError] inside the [try]. *)
Lemma empty_corpus_constructs_unfitted_object :
  Ref.analyst (Ok taxonomy_no_phrase)
  = Ok {| logger := [("Произошла ошибка при обучении векторизатора",
                      ValueError "Список униграмм пуст.")];
          data := Some taxonomy_no_phrase;
          categories := ["A"];
          vectorizer := None |}
  /\ get_text_theme (Some "машина") (RefData.built taxonomy_no_phrase)
     = (Ok error_reply,
        {| logger := [("Произошла ошибка при обучении векторизатора",
                       ValueError "Список униграмм пуст.");
                      ("Произошла ошибка при классификации текста",
                       NotFittedError "The TF-IDF vectorizer is not fitted")];
           data := Some taxonomy_no_phrase;
           categories := ["A"];
           vectorizer := None |}).
Proof. split; reflexivity. Qed.

Lemma empty_corpus_is_logged_not_raised_run :
  well_formed [] = true
  /\ phrases [] = []
  /\ new_TextAnalyst (Ok [])
     = Ok {| logger := [("Произошла ошибка при обучении векторизатора",
                         ValueError "Список униграмм пуст.")];
             data := Some [];
             categories := [];
             vectorizer := None |}.
Proof.
  split; [reflexivity|]. split; [reflexivity|].
  exact (proj1 (empty_corpus_is_logged_not_raised [] (Some "машина") eq_refl eq_refl)).
Defined.

(** C3, as stated, fails: the phrase "машина 123" is fitted as it is,
    whereas normalisation followed by tokenisation yields "машина". *)
Lemma fit_documents_are_not_normalized :
  fst (prepare_data (RefData.built taxonomy_cars)) = Ok (Some ["машина 123"])
  /\ fit_documents_spec taxonomy_cars = [Some "машина"].
Proof. split; reflexivity. Qed.

Lemma fit_documents_are_tokenized_phrases_run :
  well_formed taxonomy_tie = true
  /\ fst (prepare_data (RefData.built taxonomy_tie))
     = Ok (Some ["красная машина"; "красная машина"]).
Proof.
  split; [reflexivity|].
  exact (proj1 (fit_documents_are_tokenized_phrases taxonomy_tie
                  (RefData.built taxonomy_tie) eq_refl eq_refl eq_refl)).
Defined.

(** C4, as stated, fails: for the theme without phrases the theme text is
    empty; the source transforms it as it is and goes on to select "t2",
    whereas [transform(tokenize(theme_text))] would hand [None] to
    [transform] and end in the error object. *)
Lemma theme_text_is_not_tokenized :
  fst (get_text_theme (Some "машина") (RefData.built taxonomy_cars))
  = Ok (Dumps false [("category", "A"); ("theme", "t2")])
  /\ reply (classify
             (theme_vector_spec (vectorizer (RefData.built taxonomy_cars)))
             (vectorizer (RefData.built taxonomy_cars))
             taxonomy_cars (Some "машина"))
     = error_reply
  /\ theme_vector (vectorizer (RefData.built taxonomy_cars)) [] = Ok [0%Z; 0%Z]
  /\ theme_vector_spec (vectorizer (RefData.built taxonomy_cars)) []
     = Raise (AttributeError "'NoneType' object has no attribute 'lower'").
Proof. repeat split; reflexivity. Qed.

Lemma theme_vector_is_transform_of_joined_phrases_run :
  well_formed taxonomy_cars = true
  /\ fst (get_text_theme (Some "машина") (RefData.built taxonomy_cars))
     = Ok (Dumps false [("category", "A"); ("theme", "t2")]).
Proof.
  split; [reflexivity|].
  exact (theme_vector_is_transform_of_joined_phrases taxonomy_cars (Some "машина")
           (RefData.built taxonomy_cars) eq_refl eq_refl eq_refl).
Defined.

Lemma first_maximum_wins_run :
  cosine_similarity [0%Z; 1%Z] [1%Z; 1%Z] = Ok (1 # 2)
  /\ fst (get_text_theme (Some "красная машина") (RefData.built taxonomy_tie))
     = Ok (Dumps false [("category", "A"); ("theme", "t1")]).
Proof.
  split; [reflexivity|].
  apply (proj2 first_maximum_wins (RefData.built taxonomy_tie)
           [0%Z; 1%Z] [1%Z; 1%Z] (1 # 2)); reflexivity.
Defined.

(** C6, as stated, fails: the input "очень 123 !" shares no vocabulary
    with the only theme, and no pair exceeds 0 (every similarity to the
    vector of its empty normalised text is 0), yet the reply is the error
    object and not the no-match sentinel. *)
Lemma blank_normalised_text_is_not_no_match :
  fst (clean_text (Some "очень 123 !") (RefData.built taxonomy_weather)) = Ok ""
  /\ res_bind (transform_doc (vectorizer (RefData.built taxonomy_weather)) (Some ""))
       (fun input_vector =>
          scored (theme_vector (vectorizer (RefData.built taxonomy_weather)))
                 input_vector (pairs taxonomy_weather))
     = Ok [("W", "погода", 0%Q)]
  /\ fst (get_text_theme (Some "очень 123 !") (RefData.built taxonomy_weather))
     = Ok error_reply
  /\ error_reply <> no_match.
Proof. repeat split; try reflexivity. discriminate. Qed.

Lemma selection_requires_positive_similarity_run :
  scored (theme_vector (vectorizer (RefData.built taxonomy_weather)))
         [0%Z; 0%Z; 0%Z] (pairs taxonomy_weather)
  = Ok [("W", "погода", 0%Q)]
  /\ fst (get_text_theme (Some "экономика биржа") (RefData.built taxonomy_weather))
     = Ok no_match
  /\ fst (get_text_theme (Some "очень 123 !") (RefData.built taxonomy_weather))
     = Ok error_reply.
Proof.
  split; [reflexivity|]. split.
  - destruct (proj1 (proj2 (selection_requires_positive_similarity taxonomy_weather
                              (Some "экономика биржа") (RefData.built taxonomy_weather)
                              ltac:(reflexivity) ltac:(reflexivity) ltac:(reflexivity)))
                ([0%Z; 0%Z; 0%Z] : @vector Ref.sklearn) [("W", "погода", 0%Q)]
                ltac:(vm_compute; reflexivity) ltac:(vm_compute; reflexivity))
      as [[_ E]|(c & t & s & Hin & Hlt & _)].
    + exact E.
    + exfalso. destruct Hin as [Hin|[]]. injection Hin as _ _ <-. discriminate Hlt.
  - apply (proj2 (proj2 (selection_requires_positive_similarity taxonomy_weather
                           (Some "очень 123 !") (RefData.built taxonomy_weather)
                           ltac:(reflexivity) ltac:(reflexivity) ltac:(reflexivity)))).
    reflexivity.
Defined.

Lemma reply_shape_run :
  get_text_theme (Some "красная машина") (RefData.built taxonomy_tie)
  = (Ok (Dumps false [("category", "A"); ("theme", "t1")]),
     RefData.built taxonomy_tie)
  /\ get_text_theme (Some "красная машина") (RefData.built taxonomy_no_phrase)
     = (Ok (Dumps true [("error", "Произошла ошибка при классификации текста.")]),
        add_log [("Произошла ошибка при классификации текста",
                  NotFittedError "The TF-IDF vectorizer is not fitted")]
                (RefData.built taxonomy_no_phrase)).
Proof.
  split.
  - pose proof (proj2 (reply_shape (Some "красная машина") (RefData.built taxonomy_tie)
                         taxonomy_tie)
                  ltac:(reflexivity) ltac:(reflexivity) ltac:(reflexivity)) as H.
    rewrite H. reflexivity.
  - pose proof (proj2 (reply_shape (Some "красная машина")
                         (RefData.built taxonomy_no_phrase) taxonomy_no_phrase)
                  ltac:(reflexivity) ltac:(reflexivity) ltac:(reflexivity)) as H.
    rewrite H. reflexivity.
Defined.

(** C8, as stated, fails: the token "NaN" has the lower-cased lemma "nan"
    and is kept, because the exclusion test reads the token text. *)
Lemma exclusion_reads_the_surface_form :
  skipped (Ref.token_of "NaN") = false
  /\ discarded_spec (Ref.token_of "NaN") = true
  /\ fst (clean_text (Some "NaN") (RefData.built taxonomy_tie)) = Ok "nan".
Proof. repeat split; reflexivity. Qed.

Lemma clean_text_discards_by_surface_form_run :
  fst (clean_text (Some "NaN nan 123 машина , очень быстро !")
         (RefData.built taxonomy_tie))
  = Ok "nan машина быстрый".
Proof.
  exact (f_equal fst
           (proj2 (clean_text_discards_by_surface_form
                     "NaN nan 123 машина , очень быстро !"
                     (map Ref.token_of (Ref.split "NaN nan 123 машина , очень быстро !"))
                     (Ref.token_of "NaN") (RefData.built taxonomy_tie) eq_refl))).
Defined.

Lemma empty_text_is_tokenized_to_None_run :
  fst (clean_text (Some "очень 123 !") (RefData.built taxonomy_tie)) = Ok ""
  /\ get_text_theme (Some "очень 123 !") (RefData.built taxonomy_tie)
     = (Ok error_reply,
        add_log [("Произошла ошибка при токенизации текста",
                  ValueError "Входной текст пуст.");
                 ("Произошла ошибка при классификации текста",
                  AttributeError "'NoneType' object has no attribute 'lower'")]
                (RefData.built taxonomy_tie)).
Proof.
  split; [reflexivity|].
  exact (proj2 (proj2 (proj2 (empty_text_is_tokenized_to_None (Some "очень 123 !")
                                (RefData.built taxonomy_tie)) eq_refl))
           ["красная"; "машина"] eq_refl).
Defined.

End Runs.

(** * Further properties of [TextAnalyst] *)

Section AnalystProperties.

Context {STR : PyStr} {NLTK : Nltk} {SPACY : Spacy} {SK : Sklearn}.

Lemma silent_bind {A B : Type} (c : M A) (k : A -> M B) :
  silent c -> (forall a, silent (k a)) -> silent (bind c k).
Proof.
  intros Hc Hk self. unfold bind. specialize (Hc self).
  destruct (c self) as [[a|e] self1]; simpl in Hc; subst self1.
  - apply Hk.
  - reflexivity.
Qed.

Lemma silent_for_in {A S : Type} (l : list A) (body : A -> S -> M S) :
  (forall x s, silent (body x s)) -> forall s, silent (for_in l body s).
Proof.
  intros Hb. induction l as [|x l IH]; intros s.
  - intros self. reflexivity.
  - apply silent_bind; [apply Hb | exact IH].
Qed.

Lemma silent_data_getitem (category : string) : silent (data_getitem category).
Proof.
  intros self. unfold data_getitem, bind, gets, call, raise. simpl.
  now destruct (data self).
Qed.

Lemma silent_vectorizer_transform (doc : option string) :
  silent (vectorizer_transform doc).
Proof. intros self. now rewrite vectorizer_transform_run. Qed.

Lemma outcome_log_bound (input_text : option string) :
  (length (input_log input_text) <= 2)%nat.
Proof.
  unfold input_log. rewrite length_app.
  assert (H1 : (length (snd (clean_outcome input_text)) <= 1)%nat).
  { unfold clean_outcome. destruct input_text as [s|]; simpl; [|lia].
    destruct (nlp s); simpl; lia. }
  assert (H2 : forall x, (length (snd (tokenize_outcome x)) <= 1)%nat).
  { intros x. unfold tokenize_outcome.
    destruct (not_text x); simpl; [lia|].
    destruct x as [s|]; simpl; [|lia].
    destruct (word_tokenize s); simpl; lia. }
  specialize (H2 (Some (fst (clean_outcome input_text)))). lia.
Qed.

(** Best of a list: nothing in the list exceeds the selected similarity,
    and the selection is the initial one or a strictly better pair of
    the list. *)
Lemma best_spec (l : list (string * string * Q)) (mx : Q) (c t : string) :
  exists mx' c' t',
    best l (mx, c, t) = (mx', c', t')
    /\ Forall (fun cts => (snd cts <= mx')%Q) l
    /\ (mx <= mx')%Q
    /\ ((mx', c', t') = (mx, c, t) \/ ((mx < mx')%Q /\ In (c', t', mx') l)).
Proof.
  revert mx c t. induction l as [|[[c1 t1] s1] l IH]; intros mx c t.
  - exists mx, c, t. repeat split; [constructor | apply Qle_refl | now left].
  - change (best ((c1, t1, s1) :: l) (mx, c, t))
      with (best l (update (mx, c, t) c1 t1 s1)).
    unfold update. destruct (Qgtb s1 mx) eqn:Hg.
    + apply Qgtb_true in Hg.
      destruct (IH s1 c1 t1) as (mx' & c' & t' & E & Hall & Hle & Hsel).
      exists mx', c', t'. repeat split; trivial.
      * constructor; assumption.
      * apply Qle_trans with s1; [now apply Qlt_le_weak | assumption].
      * right. destruct Hsel as [Hsel|[Hlt Hin]].
        -- injection Hsel as -> -> ->. split; [assumption | now left].
        -- split; [now apply Qlt_trans with s1 | now right].
    + apply Qgtb_false in Hg.
      destruct (IH mx c t) as (mx' & c' & t' & E & Hall & Hle & Hsel).
      exists mx', c', t'. repeat split; trivial.
      * constructor; [|assumption]. simpl. now apply Qle_trans with mx.
      * destruct Hsel as [Hsel|[Hlt Hin]]; [now left | right].
        split; [assumption | now right].
Qed.

(** The scored pairs are the pairs of the taxonomy, in order. *)
Lemma scored_names (tv : list string -> res vector) (input_vector : vector)
  (ps : list (string * string * list string)) (l : list (string * string * Q)) :
  scored tv input_vector ps = Ok l -> map fst l = map fst ps.
Proof.
  unfold scored. revert l. induction ps as [|[[c t] p] ps IH]; intros l; simpl.
  - now intros [= <-].
  - destruct (tv p) as [cv|e]; simpl; [|discriminate].
    destruct (cosine_similarity input_vector cv) as [s|e]; simpl; [|discriminate].
    destruct (res_map _ ps) as [l'|e]; simpl; [|discriminate].
    intros [= <-]. simpl. f_equal. now apply IH.
Qed.

(** X1.  When the taxonomy file cannot be opened or parsed, [load_data]
    swallows the exception (one log record, [None] returned) and the
    constructor then raises [AttributeError] from [self.data.keys()]: no
    object is built. *)
Theorem constructor_raises_without_taxonomy (e : exn) :
  new_TextAnalyst (Raise e)
  = Raise (AttributeError "'NoneType' object has no attribute 'keys'")
  /\ forall self, exists message,
       load_data (Raise e) self = (Ok None, add_log [(message, e)] self).
Proof.
  split.
  - destruct e; reflexivity.
  - intros self. destruct e; eexists; reflexivity.
Qed.

(** X2.  When every phrase is tokenised, there is at least one phrase and
    the fit succeeds, the constructor returns an object that holds the
    taxonomy, its categories in file order and the fitted model, with
    nothing logged. *)
Theorem constructor_fits_the_phrases (d : taxonomy) (tokens : list (list string))
  (m : model) :
  well_formed d = true ->
  phrases d <> [] ->
  res_map word_tokenize (phrases d) = Ok tokens ->
  fit_transform (map (fun n_gram_tokens => join " " n_gram_tokens) tokens) = Ok m ->
  new_TextAnalyst (Ok d)
  = Ok {| logger := []; data := Some d; categories := keys d; vectorizer := Some m |}.
Proof.
  intros Hwf Hne Htok Hfit. rewrite new_TextAnalyst_run by exact Hwf.
  unfold prepare_log, fit_documents, train_outcome. rewrite Htok.
  destruct tokens as [|tk tokens].
  - destruct (phrases d) as [|p ps]; [congruence|]. simpl in Htok.
    destruct (word_tokenize p); simpl in Htok; [|discriminate].
    destruct (res_map word_tokenize ps); discriminate.
  - change (fit_transform (join " " tk :: map (join " ") tokens) = Ok m) in Hfit.
    simpl. now rewrite Hfit.
Qed.

(** X3.  When the tokenizer raises on some phrase, or the fit itself
    raises, the constructor still returns an object: the failure is only
    logged, the vectorizer stays un-fitted, and every classification on
    that object returns the error object. *)
Theorem failed_fit_leaves_an_unfitted_object (d : taxonomy)
  (input_text : option string) :
  well_formed d = true ->
  (exists e, res_map word_tokenize (phrases d) = Raise e)
  \/ (exists tokens e,
        res_map word_tokenize (phrases d) = Ok tokens
        /\ fit_transform (map (fun n_gram_tokens => join " " n_gram_tokens) tokens)
           = Raise e) ->
  exists records self,
    new_TextAnalyst (Ok d) = Ok self
    /\ self = {| logger := records; data := Some d; categories := keys d;
                 vectorizer := None |}
    /\ records <> []
    /\ fst (get_text_theme input_text self) = Ok error_reply.
Proof.
  intros Hwf H. rewrite new_TextAnalyst_run by exact Hwf.
  assert (G : fst (train_outcome (fit_documents d)) = None
              /\ snd (train_outcome (fit_documents d)) <> []).
  { unfold fit_documents, train_outcome.
    destruct H as [[e He]|(tokens & e & Htok & Hfit)].
    - rewrite He. split; [reflexivity | discriminate].
    - rewrite Htok. destruct tokens as [|tk tokens]; simpl.
      + split; [reflexivity | discriminate].
      + change (fit_transform (join " " tk :: map (join " ") tokens) = Raise e) in Hfit.
        rewrite Hfit. split; [reflexivity | discriminate]. }
  destruct G as [Gv Gl]. rewrite Gv.
  eexists _, _. split; [reflexivity|]. split; [reflexivity|]. split.
  - intros Happ. apply app_eq_nil in Happ as [_ Happ]. contradiction.
  - now apply unfitted_reply.
Qed.

(** X4.  On a successful classification the reply is an argmax: no pair of
    the taxonomy has a similarity above the one selected, and the reply is
    either the no-match sentinel (nothing exceeded 0) or a (category,
    theme) pair of the taxonomy whose similarity is positive. *)
Theorem reply_is_a_best_pair_of_the_taxonomy (d : taxonomy)
  (input_text : option string) (self : TextAnalyst) (input_vector : vector)
  (l : list (string * string * Q)) :
  well_formed d = true ->
  data self = Some d ->
  categories self = keys d ->
  transform_doc (vectorizer self) (input_document input_text) = Ok input_vector ->
  scored (theme_vector (vectorizer self)) input_vector (pairs d) = Ok l ->
  exists similarity category theme,
    fst (get_text_theme input_text self)
    = Ok (Dumps false [("category", category); ("theme", theme)])
    /\ Forall (fun cts => (snd cts <= similarity)%Q) l
    /\ ((similarity = 0%Q /\ category = "" /\ theme = "")
        \/ ((0 < similarity)%Q
            /\ In (category, theme, similarity) l
            /\ exists category_phrases,
                 In (category, theme, category_phrases) (pairs d))).
Proof.
  intros Hwf Hd Hc Hvin Hsc.
  rewrite (get_text_theme_run d) by assumption.
  unfold classify. rewrite Hvin. cbn [res_bind].
  rewrite scan_scored, Hsc. cbn [res_bind].
  destruct (best_spec l 0%Q "" "") as (mx & c & t & E & Hall & _ & Hsel).
  rewrite E. exists mx, c, t. repeat split; trivial.
  destruct Hsel as [Hsel|[Hlt Hin]].
  - left. now injection Hsel as -> -> ->.
  - right. repeat split; trivial.
    apply (in_map fst) in Hin. rewrite (scored_names _ _ _ _ Hsc) in Hin.
    apply in_map_iff in Hin as ([[c' t'] p] & Heq & Hin). simpl in Heq.
    injection Heq as -> ->. now exists p.
Qed.

(** X5.  The error object is returned exactly when a library call of the
    [try] block raises (the transform of the input, the transform of a
    theme text, or a similarity); otherwise the reply is a category/theme
    text, so the two kinds of reply never coincide. *)
Theorem error_object_iff_a_call_raises (d : taxonomy) (input_text : option string)
  (self : TextAnalyst) :
  well_formed d = true ->
  data self = Some d ->
  categories self = keys d ->
  fst (get_text_theme input_text self) = Ok error_reply
  <-> exists e,
        classify (theme_vector (vectorizer self)) (vectorizer self) d input_text
        = Raise e.
Proof.
  intros Hwf Hd Hc. rewrite (get_text_theme_run d) by assumption.
  destruct (classify _ _ d input_text) as [[[mx c] t]|e]; simpl; split.
  - discriminate.
  - intros [e He]. discriminate.
  - intros _. now exists e.
  - reflexivity.
Qed.

(** X6.  Requests served one after the other by the shared object are
    answered as if each were the only one: the replies of a batch are the
    replies each text gets on the object as it was before the batch. *)
Theorem served_requests_do_not_interfere (inputs : list (option string))
  (self : TextAnalyst) :
  fst (serve inputs self)
  = map (fun input_text => fst (get_text_theme input_text self)) inputs.
Proof.
  revert self. induction inputs as [|x inputs IH]; intros self; simpl.
  - reflexivity.
  - pose proof (stable_get_text_theme x self self (same_model_refl self)) as [_ H1].
    destruct (get_text_theme x self) as [r self1] eqn:E. simpl in H1.
    specialize (IH self1). destruct (serve inputs self1) as [rs self2].
    simpl in *. f_equal. rewrite IH. apply map_ext. intros y.
    apply (stable_get_text_theme y). now apply same_model_sym.
Qed.

(** X7.  A call of [get_text_theme] changes [self] only by appending
    records to the logger, at most three of them (normalisation,
    tokenisation, classification); earlier records are kept. *)
Theorem classification_only_appends_to_the_log (input_text : option string)
  (self : TextAnalyst) :
  exists records,
    snd (get_text_theme input_text self) = add_log records self
    /\ (length records <= 3)%nat.
Proof.
  unfold get_text_theme, try_except.
  erewrite bind_ok by apply clean_text_run.
  erewrite bind_ok by apply tokenize_text_run.
  rewrite add_log_app. fold (input_log input_text).
  set (self1 := add_log (input_log input_text) self).
  match goal with |- context [match ?body self1 with _ => _ end] =>
    assert (Hs : snd (body self1) = self1);
      [|destruct (body self1) as [[report|e] self2]]
  end.
  - apply silent_bind; [apply silent_vectorizer_transform | intros vin].
    apply silent_bind; [now intros s | intros cats].
    apply silent_bind.
    + apply silent_for_in. intros category sel.
      apply silent_bind; [apply silent_data_getitem | intros themes].
      apply silent_for_in. intros theme sel'.
      apply silent_bind; [apply silent_data_getitem | intros themes'].
      apply silent_bind; [now intros s | intros ph].
      apply silent_bind; [apply silent_vectorizer_transform | intros cv].
      apply silent_bind; [now intros s | intros sim].
      destruct sel' as [[mx c] t]. now destruct (Qgtb sim mx); intros s.
    + intros [[mx c] t]. now intros s.
  - simpl in Hs. subst self2. exists (input_log input_text). split; [reflexivity|].
    pose proof (outcome_log_bound input_text). lia.
  - simpl in Hs. subst self2.
    exists (input_log input_text ++ [("Произошла ошибка при классификации текста", e)]).
    split.
    + unfold logger_error, bind, ret, self1, add_log. simpl.
      now rewrite <- !app_assoc.
    + rewrite length_app. pose proof (outcome_log_bound input_text). simpl. lia.
Qed.

(** X20.  [clean_text] and [tokenize_text] never raise, whatever the
    libraries do: each either returns its result and logs nothing, or
    returns its failure value (the empty string, [None]) and logs exactly
    one record; nothing else of [self] changes. *)
Theorem helpers_log_and_return_a_failure_value (doc input_text : option string)
  (self : TextAnalyst) :
  (exists cleaned records,
      clean_text doc self = (Ok cleaned, add_log records self)
      /\ (records = [] \/ (cleaned = "" /\ length records = 1%nat)))
  /\ (exists tokenized records,
        tokenize_text input_text self = (Ok tokenized, add_log records self)
        /\ ((exists joined, tokenized = Some joined /\ records = [])
            \/ (tokenized = None /\ length records = 1%nat))).
Proof.
  split.
  - rewrite clean_text_run. eexists _, _. split; [reflexivity|].
    unfold clean_outcome. destruct doc as [s|]; [|now right].
    destruct (nlp s); [now left | now right].
  - rewrite tokenize_text_run. eexists _, _. split; [reflexivity|].
    unfold tokenize_outcome. destruct input_text as [[|c s]|]; simpl;
      [now right | | now right].
    destruct (word_tokenize (String c s)); simpl; [left | now right].
    now eexists.
Qed.

End AnalystProperties.

(** * Properties of [WebParser] *)

Section WebProperties.

Context {STR : PyStr} {R : Web.Requests} {B : Web.Bs4} {F : Web.Files}.

(** ** Outcomes and the logger *)

Lemma logs_only_ret {A : Type} (a : A) : logs_only (Web.ret a).
Proof. exists (Web.Return a), []. intros self. unfold Web.ret. now rewrite app_nil_r. Qed.

Lemma logs_only_raise {A : Type} (e : Web.error) : logs_only (@Web.raise A e).
Proof. exists (Web.Throw e), []. intros self. unfold Web.raise. now rewrite app_nil_r. Qed.

Lemma logs_only_call {A : Type} (r : Web.outcome A) : logs_only (Web.call r).
Proof. exists r, []. intros self. unfold Web.call. now rewrite app_nil_r. Qed.

Lemma logs_only_logger_error (l : Web.line) : logs_only (Web.logger_error l).
Proof. now exists (Web.Return tt), [l]. Qed.

Lemma logs_only_bind {A A' : Type} (c : Web.W A) (k : A -> Web.W A') :
  logs_only c -> (forall a, logs_only (k a)) -> logs_only (Web.bind c k).
Proof.
  intros (v & l & Hc) Hk. destruct v as [a|e].
  - destruct (Hk a) as (v' & l' & Hka). exists v', (l ++ l'). intros self.
    unfold Web.bind. now rewrite Hc, Hka, app_assoc.
  - exists (Web.Throw e), l. intros self. unfold Web.bind. now rewrite Hc.
Qed.

Lemma logs_only_dispatch {A : Type}
  (clauses : list ((Web.error -> bool) * (Web.error -> Web.W A))) (e : Web.error) :
  Forall (fun clause => forall e', logs_only (snd clause e')) clauses ->
  logs_only (Web.dispatch clauses e).
Proof.
  induction 1 as [|[caught handler] clauses Hh _ IH]; simpl.
  - apply logs_only_raise.
  - destruct (caught e); [apply Hh | exact IH].
Qed.

Lemma logs_only_try_except {A : Type} (body : Web.W A)
  (clauses : list ((Web.error -> bool) * (Web.error -> Web.W A))) :
  logs_only body ->
  Forall (fun clause => forall e', logs_only (snd clause e')) clauses ->
  logs_only (Web.try_except body clauses).
Proof.
  intros (v & l & Hb) Hcl. destruct v as [a|e].
  - exists (Web.Return a), l. intros self. unfold Web.try_except. now rewrite Hb.
  - destruct (logs_only_dispatch clauses e Hcl) as (v' & l' & Hd).
    exists v', (l ++ l'). intros self. unfold Web.try_except.
    now rewrite Hb, Hd, app_assoc.
Qed.

Lemma logs_only_for_in {A S : Type} (l : list A) (body : A -> S -> Web.W S) :
  (forall x s, logs_only (body x s)) -> forall s, logs_only (Web.for_in l body s).
Proof.
  intros Hb. induction l as [|x l IH]; intros s; simpl.
  - apply logs_only_ret.
  - apply logs_only_bind; [apply Hb | exact IH].
Qed.

(** What a logs-only method does on any logger is what it does on the
    empty one. *)
Lemma logs_only_run {A : Type} (c : Web.W A) (self : Web.WebParser) :
  logs_only c -> c self = (fst (c []), self ++ snd (c [])).
Proof. intros (v & l & Hc). now rewrite (Hc self), (Hc []). Qed.

Ltac logs_only_step :=
  first
    [ apply logs_only_ret
    | apply logs_only_raise
    | apply logs_only_call
    | apply logs_only_logger_error
    | apply logs_only_bind; [|intros ?]
    | apply logs_only_try_except
    | apply logs_only_for_in; intros ? ?
    | apply Forall_cons; [intros ?|]
    | apply Forall_nil ].

Lemma logs_only_disallow_loop (url base_url : string) (ds : list Web.tag) :
  logs_only (Web.disallow_loop url base_url ds).
Proof.
  induction ds as [|d ds IH]; simpl.
  - apply logs_only_ret.
  - destruct (_ || _); [repeat logs_only_step | exact IH].
Qed.

Lemma logs_only_check_scraping_permission (url : string) :
  logs_only (Web.check_scraping_permission url).
Proof.
  unfold Web.check_scraping_permission. cbv zeta.
  repeat logs_only_step.
  - match goal with |- context [Web.find ?s ?n] => destruct (Web.find s n) end;
      [apply logs_only_disallow_loop | apply logs_only_ret].
  - match goal with a : option bool |- _ => destruct a end; apply logs_only_ret.
Qed.

Lemma logs_only_get_html_title (url : string) : logs_only (Web.get_html_title url).
Proof.
  unfold Web.get_html_title.
  apply logs_only_try_except; [|repeat logs_only_step].
  apply logs_only_bind; [apply logs_only_check_scraping_permission | intros allowed].
  destruct (negb allowed); [repeat logs_only_step|].
  repeat logs_only_step.
  match goal with |- context [Web.find ?s ?n] => destruct (Web.find s n) end;
    apply logs_only_ret.
Qed.

Lemma logs_only_get_html_meta_tags (url : string) :
  logs_only (Web.get_html_meta_tags url).
Proof.
  unfold Web.get_html_meta_tags.
  apply logs_only_try_except; [|repeat logs_only_step].
  apply logs_only_bind; [apply logs_only_check_scraping_permission | intros allowed].
  destruct (negb allowed); repeat logs_only_step.
Qed.

Lemma logs_only_get_title_and_meta (url : string) :
  logs_only (Web.get_title_and_meta url).
Proof.
  unfold Web.get_title_and_meta.
  apply logs_only_try_except; [|repeat logs_only_step].
  apply logs_only_bind; [apply logs_only_get_html_title | intros title].
  apply logs_only_bind; [apply logs_only_get_html_meta_tags | intros meta].
  apply logs_only_call.
Qed.

Lemma logs_only_get_text_from_url (url : string) :
  logs_only (Web.get_text_from_url url).
Proof.
  unfold Web.get_text_from_url.
  apply logs_only_try_except; [|repeat logs_only_step].
  apply logs_only_bind; [apply logs_only_check_scraping_permission | intros allowed].
  destruct (negb allowed); repeat logs_only_step.
Qed.

Lemma logs_only_fetch_into (url : string) (d : dict (option string)) :
  logs_only (Web.fetch_into url d).
Proof.
  unfold Web.fetch_into.
  apply logs_only_bind; [apply logs_only_get_text_from_url | intros text].
  apply logs_only_ret.
Qed.

(** ** Permission to scrape *)

Lemma disallow_loop_spec (url base_url : string) (ds : list Web.tag)
  (self : Web.WebParser) :
  (exists d,
      In d ds
      /\ (Web.tag_text d = "/"
          \/ String.prefix (Web.urljoin base_url (Web.tag_text d)) url = true)
      /\ fst (Web.disallow_loop url base_url ds self) = Web.Return (Some false))
  \/ Web.disallow_loop url base_url ds self = (Web.Return None, self).
Proof.
  induction ds as [|d ds IH]; simpl.
  - now right.
  - destruct (String.eqb (Web.tag_text d) "/"
              || String.prefix (Web.urljoin base_url (Web.tag_text d)) url) eqn:Hc.
    + left. exists d. repeat split; [now left|].
      apply orb_true_iff in Hc as [Hc|Hc]; [left; now apply String.eqb_eq | now right].
    + destruct IH as [(d' & Hin & Hcond & E)|E]; [left | now right].
      exists d'. repeat split; trivial. now right.
Qed.

(** [check_scraping_permission] returns a boolean and appends lines: the
    same boolean and the same lines whatever the logger holds. *)
Lemma check_scraping_permission_run (url : string) :
  exists allowed l, forall self,
    Web.check_scraping_permission url self = (Web.Return allowed, self ++ l).
Proof.
  destruct (logs_only_check_scraping_permission url) as (v & l & Hc).
  enough (G : exists allowed, v = Web.Return allowed).
  { destruct G as [allowed ->]. now exists allowed, l. }
  specialize (Hc []). revert Hc.
  unfold Web.check_scraping_permission, Web.try_except.
  match goal with |- context [match ?body [] with _ => _ end] =>
    destruct (body []) as [[b|e] s]
  end; simpl.
  - intros [= <- _]. now exists b.
  - intros [= <- _]. now exists true.
Qed.

(** X8.  [check_scraping_permission] never raises and fails open: it
    answers [False] only when robots.txt was fetched with a success
    status, parsed, holds a tag "user-agent: *" and one of its "disallow"
    directives is "/" or, joined to the robots URL, a prefix of the URL;
    any failure on the way yields [True]. *)
Theorem scraping_is_refused_only_by_a_matching_directive (url : string)
  (self : Web.WebParser) :
  (exists allowed, fst (Web.check_scraping_permission url self) = Web.Return allowed)
  /\ (fst (Web.check_scraping_permission url self) = Web.Return false ->
      exists response parser soup agent directive,
        Web.requests_get (Web.urljoin url "/robots.txt") = Web.Return response
        /\ Web.raise_for_status response = Web.Return tt
        /\ Web.soup_of_text response parser = Web.Return soup
        /\ Web.find soup "user-agent: *" = Some agent
        /\ In directive (Web.find_all agent "disallow")
        /\ (Web.tag_text directive = "/"
            \/ String.prefix
                 (Web.urljoin (Web.urljoin url "/robots.txt") (Web.tag_text directive))
                 url = true)).
Proof.
  split.
  { destruct (check_scraping_permission_run url) as (allowed & l & Hc).
    exists allowed. now rewrite Hc. }
  unfold Web.check_scraping_permission, Web.try_except, Web.bind, Web.call.
  cbv zeta.
  destruct (Web.requests_get (Web.urljoin url "/robots.txt")) as [response|e] eqn:Hget;
    [|discriminate].
  destruct (Web.raise_for_status response) as [[]|e] eqn:Hst; [|discriminate].
  assert (Hsoup : forall soup,
             (exists agent d,
                 Web.find soup "user-agent: *" = Some agent
                 /\ In d (Web.find_all agent "disallow")
                 /\ (Web.tag_text d = "/"
                     \/ String.prefix
                          (Web.urljoin (Web.urljoin url "/robots.txt") (Web.tag_text d))
                          url = true))
             \/ match Web.find soup "user-agent: *" with
                | Some directive =>
                    Web.disallow_loop url (Web.urljoin url "/robots.txt")
                      (Web.find_all directive "disallow")
                | None => Web.ret None
                end self = (Web.Return None, self)).
  { intros soup.
    destruct (Web.find soup "user-agent: *") as [agent|] eqn:Hfind; [|now right].
    destruct (disallow_loop_spec url (Web.urljoin url "/robots.txt")
                (Web.find_all agent "disallow") self)
      as [(d & Hin & Hcond & _)|E]; [left | now right].
    now exists agent, d. }
  destruct (Web.soup_of_text response "lxml") as [soup|e] eqn:Hlxml; simpl.
  - destruct (Hsoup soup) as [(agent & d & Hfind & Hin & Hcond)|E].
    + intros _. now exists response, "lxml", soup, agent, d.
    + rewrite E. discriminate.
  - destruct (Web.is_MarkupResemblesLocatorWarning e); [|discriminate].
    destruct (Web.soup_of_text response "html.parser") as [soup|e'] eqn:Hhtml; simpl;
      [|discriminate].
    destruct (Hsoup soup) as [(agent & d & Hfind & Hin & Hcond)|E].
    + intros _. now exists response, "html.parser", soup, agent, d.
    + rewrite E. discriminate.
Qed.

(** ** Titles, meta tags and page text *)

Lemma filter_map_swap {A A' : Type} (f : A -> A') (p : A' -> bool) (l : list A) :
  filter p (map f l) = map f (filter (fun x => p (f x)) l).
Proof.
  induction l as [|x l IH]; simpl; [reflexivity|].
  destruct (p (f x)); simpl; now rewrite IH.
Qed.

(** The value of [get_title_and_meta] from the values of its two calls. *)
Lemma title_and_meta_value (url : string) (title meta : option string)
  (self : Web.WebParser) :
  fst (Web.get_html_title url []) = Web.Return title ->
  fst (Web.get_html_meta_tags url []) = Web.Return meta ->
  fst (Web.get_title_and_meta url self)
  = match Web.concat3 title " " meta with
    | Web.Return s => Web.Return s
    | Web.Throw _ => Web.Return ""
    end.
Proof.
  intros Ht Hm. unfold Web.get_title_and_meta, Web.try_except, Web.bind.
  rewrite (logs_only_run _ self (logs_only_get_html_title url)), Ht.
  rewrite (logs_only_run _ _ (logs_only_get_html_meta_tags url)), Hm.
  unfold Web.call. now destruct (Web.concat3 title " " meta).
Qed.

Lemma value_anywhere {A : Type} (c : Web.W A) (self : Web.WebParser) :
  logs_only c -> fst (c self) = fst (c []).
Proof. intros H. now rewrite (logs_only_run c self H). Qed.

(** The two halves of [get_title_and_meta] on a failed request. *)
Lemma halves_failed (url : string) (e : Web.error) :
  fst (Web.check_scraping_permission url []) = Web.Return true ->
  request_fails url e ->
  fst (Web.get_html_title url []) = Web.Return (Some "")
  /\ fst (Web.get_html_meta_tags url []) = Web.Return (Some "").
Proof.
  destruct (check_scraping_permission_run url) as (allowed & l & Hc).
  rewrite Hc. simpl. intros [= ->] Hfail. split.
  - unfold Web.get_html_title, Web.try_except, Web.bind, Web.call.
    rewrite Hc. simpl.
    destruct Hfail as [Hget|(response & Hget & Hst)]; rewrite Hget; [|rewrite Hst];
      reflexivity.
  - unfold Web.get_html_meta_tags, Web.try_except, Web.bind, Web.call.
    rewrite Hc. simpl.
    destruct Hfail as [Hget|(response & Hget & Hst)]; rewrite Hget; [|rewrite Hst];
      reflexivity.
Qed.

(** X9.  A parsed document has no tag named "user-agent: *" (a tag name
    holds no blank); hence [check_scraping_permission] answers [True] for
    every URL, whatever robots.txt says, and no method returns [None]:
    [get_html_title] and [get_html_meta_tags] always return a string, and
    [get_text_from_url] returns a string whenever it returns. *)
Theorem robots_txt_never_blocks (url : string) (self : Web.WebParser) :
  (forall soup, Web.find soup "user-agent: *" = None) ->
  fst (Web.check_scraping_permission url self) = Web.Return true
  /\ (exists title, fst (Web.get_html_title url self) = Web.Return (Some title))
  /\ (exists meta, fst (Web.get_html_meta_tags url self) = Web.Return (Some meta))
  /\ (forall text,
        fst (Web.get_text_from_url url self) = Web.Return text ->
        exists page, text = Some page).
Proof.
  intros Hfind.
  destruct (check_scraping_permission_run url) as (allowed & l & Hc).
  assert (Ha : allowed = true).
  { specialize (Hc []). revert Hc.
    unfold Web.check_scraping_permission, Web.try_except, Web.bind, Web.call.
    cbv zeta.
    destruct (Web.requests_get (Web.urljoin url "/robots.txt")) as [response|e]; simpl;
      [|now intros [= <- _]].
    destruct (Web.raise_for_status response) as [[]|e]; simpl; [|now intros [= <- _]].
    destruct (Web.soup_of_text response "lxml") as [soup|e]; simpl.
    - rewrite Hfind. simpl. now intros [= <- _].
    - destruct (Web.is_MarkupResemblesLocatorWarning e); simpl; [|now intros [= <- _]].
      destruct (Web.soup_of_text response "html.parser") as [soup|e']; simpl;
        [|now intros [= <- _]].
      rewrite Hfind. simpl. now intros [= <- _]. }
  subst allowed. split; [now rewrite Hc|]. split; [|split].
  - unfold Web.get_html_title, Web.try_except, Web.bind, Web.call.
    rewrite Hc. simpl.
    destruct (Web.requests_get url) as [response|e]; simpl; [|now eexists].
    destruct (Web.raise_for_status response) as [[]|e]; simpl; [|now eexists].
    destruct (Web.soup_of_text response "html.parser") as [soup|e]; simpl;
      [|now eexists].
    destruct (Web.find soup "title"); now eexists.
  - unfold Web.get_html_meta_tags, Web.try_except, Web.bind, Web.call.
    rewrite Hc. simpl.
    destruct (Web.requests_get url) as [response|e]; simpl; [|now eexists].
    destruct (Web.raise_for_status response) as [[]|e]; simpl; [|now eexists].
    destruct (Web.soup_of_content response) as [soup|e]; simpl; now eexists.
  - intros text. unfold Web.get_text_from_url, Web.try_except, Web.bind, Web.call.
    rewrite Hc. simpl.
    assert (Hd : forall e s,
               fst (Web.dispatch
                      [(Web.is_RequestException,
                        fun e0 =>
                          Web.bind
                            (Web.logger_error
                               (Web.Line "Произошла ошибка при получении текста из {url}: {e}"
                                         (Some url) (Some e0)))
                            (fun _ => Web.ret (Some "Ошибка соединения")));
                       (Web.is_ValueError,
                        fun e0 =>
                          Web.bind
                            (Web.logger_error
                               (Web.Line "Произошла ошибка при получении текста из {url}: {e}"
                                         (Some url) (Some e0)))
                            (fun _ => Web.ret (Some "")))] e s)
               = Web.Return text -> exists page, text = Some page).
    { intros e s. simpl.
      destruct (Web.is_RequestException e); simpl; [intros [= <-]; now eexists|].
      destruct (Web.is_ValueError e); simpl; [intros [= <-]; now eexists|].
      discriminate. }
    destruct (Web.requests_get url) as [response|e]; simpl; [|apply Hd].
    destruct (Web.raise_for_status response) as [[]|e]; simpl; [|apply Hd].
    destruct (Web.soup_of_text response "html.parser") as [soup|e]; simpl; [|apply Hd].
    intros [= <-]. now eexists.
Qed.

(** X10.  When scraping is allowed but the request for the page fails
    (in [requests.get] or in [raise_for_status]), title and meta text are
    both the empty string and [get_title_and_meta] returns one space;
    [get_text_from_url] answers "Ошибка соединения" for a
    [RequestException], the empty string for a [ValueError], and lets any
    other exception through. *)
Theorem failed_requests_yield_blank_text (url : string) (e : Web.error)
  (self : Web.WebParser) :
  fst (Web.check_scraping_permission url self) = Web.Return true ->
  request_fails url e ->
  fst (Web.get_html_title url self) = Web.Return (Some "")
  /\ fst (Web.get_html_meta_tags url self) = Web.Return (Some "")
  /\ fst (Web.get_title_and_meta url self) = Web.Return " "
  /\ fst (Web.get_text_from_url url self)
     = match e with
       | Web.RequestException _ => Web.Return (Some "Ошибка соединения")
       | Web.ValueError _ => Web.Return (Some "")
       | _ => Web.Throw e
       end.
Proof.
  rewrite (value_anywhere _ self (logs_only_check_scraping_permission url)).
  intros Hcheck Hfail. destruct (halves_failed url e Hcheck Hfail) as [Ht Hm].
  repeat split.
  - now rewrite (value_anywhere _ self (logs_only_get_html_title url)).
  - now rewrite (value_anywhere _ self (logs_only_get_html_meta_tags url)).
  - now rewrite (title_and_meta_value url (Some "") (Some "")).
  - destruct (check_scraping_permission_run url) as (allowed & l & Hc).
    rewrite Hc in Hcheck. simpl in Hcheck. injection Hcheck as ->.
    unfold Web.get_text_from_url, Web.try_except, Web.bind, Web.call.
    rewrite Hc. simpl.
    destruct Hfail as [Hget|(response & Hget & Hst)]; rewrite Hget; [|rewrite Hst];
      simpl; now destruct e.
Qed.

(** X11.  When scraping is allowed and the page is fetched and parsed,
    [get_title_and_meta] returns the stripped text of the first title tag
    (or nothing), one space, and the stripped, non-blank contents of the
    meta tags named keywords or description (case-insensitively), in
    document order, joined by single spaces; [get_text_from_url] returns
    the stripped strings of the page joined by single spaces. *)
Theorem fetched_pages_yield_title_and_meta (url : string)
  (response : Web.response) (soup soup' : Web.soup) (self : Web.WebParser) :
  fst (Web.check_scraping_permission url self) = Web.Return true ->
  Web.requests_get url = Web.Return response ->
  Web.raise_for_status response = Web.Return tt ->
  Web.soup_of_text response "html.parser" = Web.Return soup ->
  Web.soup_of_content response = Web.Return soup' ->
  fst (Web.get_title_and_meta url self)
  = Web.Return (title_of soup ++ " " ++ meta_of soup')%string
  /\ fst (Web.get_text_from_url url self)
     = Web.Return (Some (join " " (Web.stripped_strings soup)))
  /\ Forall (fun content => content <> "")
            (filter Web.truthy
               (map (fun t => strip (Web.attr t "content"))
                    (filter Web.is_meta (Web.tags soup')))).
Proof.
  destruct (check_scraping_permission_run url) as (allowed & l & Hc).
  rewrite Hc. simpl. intros [= ->] Hget Hst Hsoup Hsoup'.
  assert (Ht : fst (Web.get_html_title url []) = Web.Return (Some (title_of soup))).
  { unfold Web.get_html_title, Web.try_except, Web.bind, Web.call, title_of.
    rewrite Hc. simpl. rewrite Hget, Hst, Hsoup.
    now destruct (Web.find soup "title"). }
  assert (Hm : fst (Web.get_html_meta_tags url []) = Web.Return (Some (meta_of soup'))).
  { unfold Web.get_html_meta_tags, Web.try_except, Web.bind, Web.call, meta_of.
    rewrite Hc. simpl. rewrite Hget, Hst, Hsoup'. simpl.
    now rewrite filter_map_swap. }
  repeat split.
  - now rewrite (title_and_meta_value url _ _ self Ht Hm).
  - unfold Web.get_text_from_url, Web.try_except, Web.bind, Web.call.
    rewrite Hc. simpl. now rewrite Hget, Hst, Hsoup.
  - apply Forall_forall. intros content Hin. apply filter_In in Hin as [_ Hin].
    now destruct content.
Qed.

(** X12.  A parser failure that is neither a [RequestException] nor a
    [ValueError] escapes [get_text_from_url], whereas [get_html_title]
    swallows the same failure and returns the empty string. *)
Theorem parser_failures_escape_get_text_from_url (url : string)
  (response : Web.response) (e : Web.error) (self : Web.WebParser) :
  fst (Web.check_scraping_permission url self) = Web.Return true ->
  Web.requests_get url = Web.Return response ->
  Web.raise_for_status response = Web.Return tt ->
  Web.soup_of_text response "html.parser" = Web.Throw e ->
  Web.is_RequestException e = false ->
  Web.is_ValueError e = false ->
  fst (Web.get_text_from_url url self) = Web.Throw e
  /\ fst (Web.get_html_title url self) = Web.Return (Some "").
Proof.
  destruct (check_scraping_permission_run url) as (allowed & l & Hc).
  rewrite Hc. simpl. intros [= ->] Hget Hst Hsoup Hr Hv. split.
  - unfold Web.get_text_from_url, Web.try_except, Web.bind, Web.call.
    rewrite Hc. simpl. rewrite Hget, Hst, Hsoup. simpl. now rewrite Hr, Hv.
  - unfold Web.get_html_title, Web.try_except, Web.bind, Web.call.
    rewrite Hc. simpl. now rewrite Hget, Hst, Hsoup.
Qed.

(** ** Batches of URLs *)

Lemma getitem_setitem_same {V : Type} (d : dict V) (k : string) (v : V) :
  getitem (Web.setitem d k v) k = Ok v.
Proof.
  unfold getitem. induction d as [|[k' v'] d IH]; simpl.
  - now rewrite String.eqb_refl.
  - destruct (String.eqb k' k) eqn:E; simpl; rewrite E; [reflexivity | exact IH].
Qed.

Lemma getitem_setitem_other {V : Type} (d : dict V) (k k' : string) (v : V) :
  k' <> k -> getitem (Web.setitem d k v) k' = getitem d k'.
Proof.
  intros Hne. unfold getitem. induction d as [|[k0 v0] d IH]; simpl.
  - apply String.eqb_neq in Hne. rewrite String.eqb_sym in Hne. now rewrite Hne.
  - destruct (String.eqb k0 k) eqn:E; simpl.
    + apply String.eqb_eq in E. subst k0.
      apply String.eqb_neq in Hne. rewrite String.eqb_sym in Hne. now rewrite Hne.
    + destruct (String.eqb k0 k'); [reflexivity | exact IH].
Qed.

Lemma keys_setitem {V : Type} (d : dict V) (k k' : string) (v : V) :
  In k' (keys (Web.setitem d k v)) <-> k' = k \/ In k' (keys d).
Proof.
  induction d as [|[k0 v0] d IH]; simpl.
  - intuition.
  - destruct (String.eqb k0 k) eqn:E; simpl.
    + apply String.eqb_eq in E. subst k0. intuition.
    + rewrite IH. intuition.
Qed.

Lemma existsb_eqb_in (k : string) (l : list string) :
  existsb (String.eqb k) l = true <-> In k l.
Proof.
  rewrite existsb_exists. split.
  - intros (x & Hin & E). apply String.eqb_eq in E. now subst.
  - intros Hin. exists k. split; [assumption | apply String.eqb_refl].
Qed.

Lemma distinct_setitem {V : Type} (d : dict V) (k : string) (v : V) :
  distinct (keys d) = true -> distinct (keys (Web.setitem d k v)) = true.
Proof.
  induction d as [|[k0 v0] d IH]; simpl; [reflexivity|].
  intros H. apply andb_true_iff in H as [Hk Hd].
  destruct (String.eqb k0 k) eqn:E; simpl.
  - now rewrite Hk, Hd.
  - rewrite (IH Hd), andb_true_r. apply negb_true_iff in Hk.
    apply negb_true_iff, not_true_iff_false. intros Hin.
    apply existsb_eqb_in, keys_setitem in Hin as [->|Hin].
    + now rewrite String.eqb_refl in E.
    + apply existsb_eqb_in in Hin. congruence.
Qed.

Lemma web_for_in_map {A A' S : Type} (g : A -> A') (l : list A)
  (body : A' -> S -> Web.W S) (s : S) (self : Web.WebParser) :
  Web.for_in (map g l) body s self = Web.for_in l (fun x => body (g x)) s self.
Proof.
  revert s self. induction l as [|x l IH]; intros s self; simpl.
  - reflexivity.
  - unfold Web.bind.
    destruct (body (g x) s self) as [[s1|e] self1]; [apply IH | reflexivity].
Qed.

(** The loop [text = get_text_from_url(url); url_to_text[url] = text] over
    URLs whose fetch returns. *)
Lemma fetch_loop (urls : list string) :
  Forall (fun u => exists t, page_text u = Web.Return t) urls ->
  forall (d0 : dict (option string)) (self : Web.WebParser),
  exists d l,
    Web.for_in urls Web.fetch_into d0 self = (Web.Return d, self ++ l)
    /\ (distinct (keys d0) = true -> distinct (keys d) = true)
    /\ (forall k, In k (keys d) <-> In k (keys d0) \/ In k urls)
    /\ (forall k, ~ In k urls -> getitem d k = getitem d0 k)
    /\ (forall k, In k urls ->
          exists t, page_text k = Web.Return t /\ getitem d k = Ok t).
Proof.
  induction 1 as [|u urls [t Ht] _ IH]; intros d0 self.
  - exists d0, []. simpl. unfold Web.ret. rewrite app_nil_r.
    repeat split; tauto.
  - pose proof (logs_only_run _ self (logs_only_get_text_from_url u)) as Hrun.
    fold (page_text u) in Hrun. rewrite Ht in Hrun.
    destruct (IH (Web.setitem d0 u t) (self ++ snd (Web.get_text_from_url u [])))
      as (d & l & Hloop & Hdist & Hkeys & Hout & Hin).
    exists d, (snd (Web.get_text_from_url u []) ++ l).
    split; [|split; [|split; [|split]]].
    + simpl. unfold Web.bind at 1. unfold Web.fetch_into at 1, Web.bind at 1.
      rewrite Hrun. unfold Web.ret. rewrite Hloop. now rewrite app_assoc.
    + intros Hd. apply Hdist. now apply distinct_setitem.
    + intros k. rewrite Hkeys, keys_setitem. simpl. intuition.
    + intros k Hk. rewrite Hout by (intros Hk'; apply Hk; now right).
      apply getitem_setitem_other. intros ->. apply Hk. now left.
    + intros k Hk. destruct (in_dec string_dec k urls) as [Hk'|Hk'].
      * now apply Hin.
      * destruct Hk as [<-|Hk]; [|contradiction].
        exists t. split; [assumption|]. rewrite Hout by assumption.
        apply getitem_setitem_same.
Qed.

(** X13.  For a ".txt" or ".json" file that is read and whose URLs are all
    fetched without an escaping exception, [get_text_from_urls_in_file]
    returns a dictionary whose keys are exactly the listed URLs (stripped;
    for JSON the member "url", else "domain", else the empty string), each
    once, and which maps every listed URL to the text
    [get_text_from_url] returns for it. *)
Theorem listed_urls_are_mapped_to_their_text (file_path : string)
  (urls : list string) (self : Web.WebParser) :
  (lower (snd (Web.splitext file_path)) = ".txt"
   /\ exists lines,
        Web.readlines file_path = Web.Return lines
        /\ urls = map (fun url => strip url) lines)
  \/ (lower (snd (Web.splitext file_path)) = ".json"
      /\ exists data,
           Web.json_load file_path = Web.Return data
           /\ urls = map item_url data) ->
  Forall (fun url => exists text, page_text url = Web.Return text) urls ->
  exists url_to_text,
    fst (Web.get_text_from_urls_in_file file_path self) = Web.Return url_to_text
    /\ distinct (keys url_to_text) = true
    /\ (forall url, In url (keys url_to_text) <-> In url urls)
    /\ (forall url, In url urls ->
          exists text,
            getitem url_to_text url = Ok text
            /\ fst (Web.get_text_from_url url self) = Web.Return text).
Proof.
  intros Hfile Hfetch.
  destruct (fetch_loop urls Hfetch [] self) as (d & l & Hloop & Hdist & Hkeys & _ & Hin).
  exists d. split; [|split; [|split]].
  - unfold Web.get_text_from_urls_in_file, Web.supported_extensions.
    destruct Hfile as [(Hext & lines & Hread & ->)|(Hext & data & Hread & ->)];
      rewrite Hext; cbn [existsb String.eqb Ascii.eqb Bool.eqb negb orb andb];
      unfold Web.try_except, Web.bind at 1, Web.call; rewrite Hread.
    + rewrite web_for_in_map in Hloop.
      change (Web.for_in lines (fun url d0 => Web.fetch_into (strip url) d0) [] self
              = (Web.Return d, self ++ l)) in Hloop.
      now rewrite Hloop.
    + rewrite web_for_in_map in Hloop.
      change (Web.for_in data
                (fun item d0 =>
                   Web.fetch_into
                     (strip (Web.get_default item "url" (Web.get_default item "domain" "")))
                     d0) [] self
              = (Web.Return d, self ++ l)) in Hloop.
      cbv zeta. now rewrite Hloop.
  - now apply Hdist.
  - intros url. rewrite Hkeys. simpl. tauto.
  - intros url Hurl. destruct (Hin url Hurl) as (t & Ht & Hget).
    exists t. split; [assumption|].
    now rewrite (value_anywhere _ self (logs_only_get_text_from_url url)).
Qed.

(** X14.  A path whose extension, lower-cased, is not ".txt", ".csv",
    ".xlsx" or ".json" is rejected with a [ValueError] before anything is
    read or logged; a [FileNotFoundError] of the reader is logged once and
    raised again to the caller. *)
Theorem batch_errors_reach_the_caller (file_path : string) (self : Web.WebParser) :
  (existsb (String.eqb (lower (snd (Web.splitext file_path)))) Web.supported_extensions
   = false ->
   Web.get_text_from_urls_in_file file_path self
   = (Web.Throw (Web.ValueError "Файл должен иметь расширение .txt, .csv, .xlsx или .json"),
      self))
  /\ (forall msg,
        (lower (snd (Web.splitext file_path)) = ".txt"
         /\ Web.readlines file_path = Web.Throw (Web.FileNotFoundError msg))
        \/ (lower (snd (Web.splitext file_path)) = ".csv"
            /\ Web.csv_reader file_path = Web.Throw (Web.FileNotFoundError msg))
        \/ (lower (snd (Web.splitext file_path)) = ".xlsx"
            /\ Web.worksheet_rows file_path = Web.Throw (Web.FileNotFoundError msg))
        \/ (lower (snd (Web.splitext file_path)) = ".json"
            /\ Web.json_load file_path = Web.Throw (Web.FileNotFoundError msg)) ->
        Web.get_text_from_urls_in_file file_path self
        = (Web.Throw (Web.FileNotFoundError msg),
           self ++ [Web.Line "Файл не найден: {e}" None
                      (Some (Web.FileNotFoundError msg))])).
Proof.
  split.
  - intros Hext. unfold Web.get_text_from_urls_in_file. now rewrite Hext.
  - intros msg H. unfold Web.get_text_from_urls_in_file, Web.supported_extensions.
    destruct H as [[Hext Hread]|[[Hext Hread]|[[Hext Hread]|[Hext Hread]]]];
      rewrite Hext; cbn [existsb String.eqb Ascii.eqb Bool.eqb negb orb andb];
      unfold Web.try_except, Web.bind at 1, Web.call; rewrite Hread; reflexivity.
Qed.

(** X15.  A blank row in a ".csv" file makes [row[0]] raise an
    [IndexError] that nothing catches: the call raises it, and the texts
    fetched for the rows before it are lost. *)
Theorem blank_csv_rows_abort_the_batch (file_path : string)
  (before after : list (list string)) (ended : option Web.error)
  (self : Web.WebParser) :
  lower (snd (Web.splitext file_path)) = ".csv" ->
  Web.csv_reader file_path = Web.Return (before ++ [] :: after, ended) ->
  Forall (fun row => exists cell cells text,
            row = cell :: cells /\ page_text (strip cell) = Web.Return text)
         before ->
  fst (Web.get_text_from_urls_in_file file_path self) = Web.Throw Web.IndexError.
Proof.
  intros Hext Hread Hrows.
  unfold Web.get_text_from_urls_in_file, Web.supported_extensions.
  rewrite Hext. cbn [existsb String.eqb Ascii.eqb Bool.eqb negb orb andb].
  unfold Web.try_except, Web.bind at 1, Web.call. rewrite Hread. cbn [fst snd].
  unfold Web.bind at 1. clear Hread.
  enough (G : forall d0 s, exists s',
             Web.for_in (before ++ [] :: after)
               (fun row url_to_text =>
                  Web.bind (fun self0 => (Web.first_cell row, self0))
                    (fun cell => Web.fetch_into (strip cell) url_to_text))
               d0 s = (Web.Throw Web.IndexError, s')).
  { destruct (G [] self) as [s' ->]. reflexivity. }
  induction Hrows as [|row before (cell & cells & text & -> & Ht) _ IH]; intros d0 s.
  - eexists. simpl. reflexivity.
  - simpl. unfold Web.bind at 1. unfold Web.bind at 1. simpl.
    unfold Web.fetch_into at 1, Web.bind at 1.
    pose proof (logs_only_run _ s (logs_only_get_text_from_url (strip cell))) as Hrun.
    fold (page_text (strip cell)) in Hrun. rewrite Ht in Hrun. rewrite Hrun.
    unfold Web.ret. apply IH.
Qed.

Lemma logs_only_get_text_from_urls_in_file (file_path : string) :
  logs_only (Web.get_text_from_urls_in_file file_path).
Proof.
  unfold Web.get_text_from_urls_in_file. cbv zeta.
  destruct (negb _); [apply logs_only_raise|].
  apply logs_only_try_except; [|repeat logs_only_step].
  repeat match goal with |- logs_only (if ?b then _ else _) => destruct b end;
    repeat first [apply logs_only_fetch_into | logs_only_step].
  match goal with |- logs_only (match ?o with _ => _ end) => destruct o end;
    logs_only_step.
Qed.

(** X16.  No method of [WebParser] reads or drops what has been logged:
    on any logger each returns what it returns on an empty one, and the
    logger afterwards is the old one followed by the lines of that run. *)
Theorem parser_methods_only_append_log_lines (url file_path : string)
  (self : Web.WebParser) :
  Web.check_scraping_permission url self
  = (fst (Web.check_scraping_permission url []),
     self ++ snd (Web.check_scraping_permission url []))
  /\ Web.get_title_and_meta url self
     = (fst (Web.get_title_and_meta url []), self ++ snd (Web.get_title_and_meta url []))
  /\ Web.get_text_from_url url self
     = (fst (Web.get_text_from_url url []), self ++ snd (Web.get_text_from_url url []))
  /\ Web.get_text_from_urls_in_file file_path self
     = (fst (Web.get_text_from_urls_in_file file_path []),
        self ++ snd (Web.get_text_from_urls_in_file file_path [])).
Proof.
  repeat split; apply logs_only_run.
  - apply logs_only_check_scraping_permission.
  - apply logs_only_get_title_and_meta.
  - apply logs_only_get_text_from_url.
  - apply logs_only_get_text_from_urls_in_file.
Qed.


End WebProperties.

(** * Properties of the handler [check_url] *)

Section ApiProperties.

Context {STR : PyStr} {NLTK : Nltk} {SPACY : Spacy} {SK : Sklearn}
        {R : Web.Requests} {B : Web.Bs4}.


(** X17.  A request without a usable URL is answered 400 with the error
    object of the handler, and neither the parser nor the analyzer nor the
    output is touched: a GET whose query has no "url" or an empty one, a
    POST whose form holds an empty "url" (the JSON body is then not read),
    and a POST without form "url" whose JSON body is [null] or an object
    with no "url" or an empty one.  When [request.get_json()] raises, as
    it does for a POST that carries no JSON body, the exception leaves
    the handler, which produces no response of its own. *)
Theorem requests_without_url_are_answered_400 (request : Api.Request) (app : Api.App) :
  ((Api.method request = "GET"
    /\ Api.url_given (Api.get (Api.args request) "url") = false)
   \/ (Api.method request = "POST"
       /\ Api.get (Api.form request) "url" = Some "")
   \/ (Api.method request = "POST"
       /\ Api.get (Api.form request) "url" = None
       /\ (Api.get_json request = Web.Return None
           \/ exists data,
                Api.get_json request = Web.Return (Some data)
                /\ Api.url_given (Api.get data "url") = false)) ->
   Api.check_url request app
   = (Web.Return (Api.Jsonify [("error", "Неверный или отсутствующий параметр URL")] 400),
      app))
  /\ (forall e,
        Api.method request = "POST" ->
        Api.get (Api.form request) "url" = None ->
        Api.get_json request = Web.Throw e ->
        Api.check_url request app = (Web.Throw e, app)).
Proof.
  split.
  - intros [[Hm Hu]|[[Hm Hu]|(Hm & Hu & Hj)]]; unfold Api.check_url; rewrite Hm;
      cbn [String.eqb Ascii.eqb Bool.eqb].
    + unfold Api.answer, Api.url_given in *.
      now destruct (Api.get (Api.args request) "url") as [[|c u]|].
    + now rewrite Hu.
    + rewrite Hu. destruct Hj as [-> | (data & -> & Hgiven)]; [reflexivity|].
      match goal with |- context [Api.answer (if ?b then _ else _)] =>
        destruct b; [|reflexivity]
      end.
      unfold Api.answer, Api.url_given in *.
      now destruct (Api.get data "url") as [[|c u]|].
  - intros e Hm Hu Hj. unfold Api.check_url. rewrite Hm, Hu, Hj. reflexivity.
Qed.


(** X19.  When the page of the requested URL cannot be fetched (the
    request fails), the text classified is a single space, and (spaCy
    keeping no token of it) the answer is still 200, carrying the error
    object of the classifier. *)
Theorem unreachable_pages_are_answered_with_the_error_object
  (request : Api.Request) (app : Api.App) (c : ascii) (u : string) (e : Web.error)
  (doc : list Token) :
  Api.method request = "GET" ->
  Api.get (Api.args request) "url" = Some (String c u) ->
  fst (Web.check_scraping_permission (String c u) []) = Web.Return true ->
  request_fails (String c u) e ->
  nlp " " = Ok doc ->
  forallb skipped doc = true ->
  fst (Web.get_title_and_meta (String c u) (Api.parser app)) = Web.Return " "
  /\ fst (Api.check_url request app)
     = Web.Return (Api.Response (DumpsStr false error_reply) 200).
Proof.
  intros Hm Hu Hcheck Hfail Hdoc Hskip.
  destruct (halves_failed _ e Hcheck Hfail) as [Ht Hm'].
  assert (Hpage : fst (Web.get_title_and_meta (String c u) (Api.parser app))
                  = Web.Return " ")
    by now rewrite (title_and_meta_value _ (Some "") (Some "")).
  split; [exact Hpage|].
  unfold Api.check_url. rewrite Hm, Hu.
  cbn [String.eqb Ascii.eqb Bool.eqb]. unfold Api.answer.
  destruct (Web.get_title_and_meta (String c u) (Api.parser app))
    as [[page|e'] parser'] eqn:Epage; simpl in Hpage; [|discriminate].
  injection Hpage as ->.
  assert (Hclean : fst (clean_outcome (Some " ")) = "").
  { unfold clean_outcome. rewrite Hdoc. cbn [fst].
    now rewrite (kept_all_skipped doc Hskip). }
  pose proof (empty_clean_reply (Some " ") (Api.analyzer app) Hclean) as Hreply.
  unfold check_url, bind.
  destruct (get_text_theme (Some " ") (Api.analyzer app)) as [r analyzer'].
  simpl in Hreply. subst r. reflexivity.
Qed.

End ApiProperties.

(** * Further runs on the reference implementation *)

Section MoreRuns.

#[local] Existing Instance Ref.str.
#[local] Existing Instance Ref.nltk.
#[local] Existing Instance Ref.spacy.
#[local] Existing Instance Ref.sklearn.
#[local] Existing Instance RefWeb.requests.
#[local] Existing Instance RefWeb.bs4.
#[local] Existing Instance RefWeb.files.

Lemma constructor_fits_the_phrases_run :
  new_TextAnalyst (Ok taxonomy_tie)
  = Ok {| logger := []; data := Some taxonomy_tie; categories := ["A"; "B"];
          vectorizer := Some ["красная"; "машина"] |}.
Proof.
  apply (constructor_fits_the_phrases taxonomy_tie
           [["красная"; "машина"]; ["красная"; "машина"]]
           (["красная"; "машина"] : @model Ref.sklearn));
    [reflexivity | discriminate | reflexivity | reflexivity].
Defined.

Lemma failed_fit_leaves_an_unfitted_object_run :
  exists records self,
    new_TextAnalyst (Ok RefWeb.taxonomy_blank) = Ok self
    /\ self = {| logger := records; data := Some RefWeb.taxonomy_blank;
                 categories := keys RefWeb.taxonomy_blank; vectorizer := None |}
    /\ records <> []
    /\ fst (get_text_theme (Some "машина") self) = Ok error_reply.
Proof.
  apply (failed_fit_leaves_an_unfitted_object RefWeb.taxonomy_blank (Some "машина"));
    [reflexivity|].
  right. exists [[]]. eexists. split; reflexivity.
Defined.

Lemma reply_is_a_best_pair_of_the_taxonomy_run :
  exists similarity category theme,
    fst (get_text_theme (Some "красная машина") (RefData.built taxonomy_tie))
    = Ok (Dumps false [("category", category); ("theme", theme)])
    /\ Forall (fun cts => (snd cts <= similarity)%Q)
              [("A", "t1", 1 # 2); ("B", "t2", 1 # 2)]
    /\ ((similarity = 0%Q /\ category = "" /\ theme = "")
        \/ ((0 < similarity)%Q
            /\ In (category, theme, similarity) [("A", "t1", 1 # 2); ("B", "t2", 1 # 2)]
            /\ exists category_phrases,
                 In (category, theme, category_phrases) (pairs taxonomy_tie))).
Proof.
  apply (reply_is_a_best_pair_of_the_taxonomy taxonomy_tie (Some "красная машина")
           (RefData.built taxonomy_tie) ([0%Z; 1%Z] : @vector Ref.sklearn));
    first [reflexivity | vm_compute; reflexivity].
Defined.

Lemma error_object_iff_a_call_raises_run :
  fst (get_text_theme (Some "очень") (RefData.built taxonomy_tie)) = Ok error_reply.
Proof.
  apply (error_object_iff_a_call_raises taxonomy_tie (Some "очень")
           (RefData.built taxonomy_tie));
    try reflexivity.
  eexists. vm_compute. reflexivity.
Defined.

Lemma scraping_is_refused_only_by_a_matching_directive_run :
  fst (Web.check_scraping_permission "https://closed.example/page" [])
  = Web.Return false
  /\ exists response parser soup agent directive,
       Web.requests_get (Web.urljoin "https://closed.example/page" "/robots.txt")
       = Web.Return response
       /\ Web.raise_for_status response = Web.Return tt
       /\ Web.soup_of_text response parser = Web.Return soup
       /\ Web.find soup "user-agent: *" = Some agent
       /\ In directive (Web.find_all agent "disallow")
       /\ (Web.tag_text directive = "/"
           \/ String.prefix
                (Web.urljoin (Web.urljoin "https://closed.example/page" "/robots.txt")
                   (Web.tag_text directive))
                "https://closed.example/page" = true).
Proof.
  split; [reflexivity|].
  apply (proj2 (scraping_is_refused_only_by_a_matching_directive
                  "https://closed.example/page" [])).
  reflexivity.
Defined.

Lemma robots_txt_never_blocks_run :
  fst (@Web.check_scraping_permission RefWeb.requests RefWeb.plain_bs4
         "https://closed.example/page" [])
  = Web.Return true
  /\ fst (@Web.get_html_title Ref.str RefWeb.requests RefWeb.plain_bs4
            "https://closed.example/page" [])
     = Web.Return (Some "Закрыто")
  /\ fst (@Web.get_text_from_url RefWeb.requests RefWeb.plain_bs4
            "https://closed.example/page" [])
     = Web.Return (Some "Закрыто").
Proof.
  assert (Hfind : forall soup : @Web.soup RefWeb.requests RefWeb.plain_bs4,
             @Web.find RefWeb.requests RefWeb.plain_bs4 soup "user-agent: *" = None)
    by reflexivity.
  destruct (@robots_txt_never_blocks Ref.str RefWeb.requests RefWeb.plain_bs4
              "https://closed.example/page" [] Hfind) as (H1 & _ & _ & _).
  split; [exact H1|]. split; reflexivity.
Defined.

Lemma failed_requests_yield_blank_text_run :
  fst (Web.get_title_and_meta "https://nowhere.example/" []) = Web.Return " "
  /\ fst (Web.get_text_from_url "https://nowhere.example/" [])
     = Web.Return (Some "Ошибка соединения").
Proof.
  pose proof (failed_requests_yield_blank_text "https://nowhere.example/"
                (Web.RequestException "connection failed") []
                eq_refl (or_introl eq_refl)) as (_ & _ & H3 & H4).
  split; assumption.
Defined.

Lemma fetched_pages_yield_title_and_meta_run :
  fst (Web.get_title_and_meta "https://shop.example/" [])
  = Web.Return "Красная машина машина очень быстро"
  /\ fst (Web.get_text_from_url "https://shop.example/" [])
     = Web.Return (Some "Красная машина очень быстро").
Proof.
  destruct (getitem RefWeb.site "https://shop.example/") as [p|] eqn:E;
    [|discriminate].
  pose proof (fetched_pages_yield_title_and_meta "https://shop.example/" p p p []) as H.
  vm_compute in E. injection E as <-.
  destruct (H eq_refl eq_refl eq_refl eq_refl eq_refl) as (H1 & H2 & _).
  split; [exact H1 | exact H2].
Defined.

Lemma parser_failures_escape_get_text_from_url_run :
  fst (Web.get_text_from_url "https://broken.example/" [])
  = Web.Throw (Web.OtherError "parser")
  /\ fst (Web.get_html_title "https://broken.example/" []) = Web.Return (Some "").
Proof.
  apply (parser_failures_escape_get_text_from_url "https://broken.example/"
           ({| RefWeb.status_ok := true; RefWeb.parses := false;
               RefWeb.page_tags := []; RefWeb.page_strings := [] |}
            : @Web.response RefWeb.requests)
           (Web.OtherError "parser") []); reflexivity.
Defined.

Lemma listed_urls_are_mapped_to_their_text_run :
  exists url_to_text,
    fst (Web.get_text_from_urls_in_file "urls.txt" []) = Web.Return url_to_text
    /\ distinct (keys url_to_text) = true
    /\ (forall url, In url (keys url_to_text)
                    <-> In url ["https://shop.example/"; "https://closed.example/page";
                                "https://shop.example/"])
    /\ (forall url, In url ["https://shop.example/"; "https://closed.example/page";
                            "https://shop.example/"] ->
          exists text,
            getitem url_to_text url = Ok text
            /\ fst (Web.get_text_from_url url []) = Web.Return text).
Proof.
  apply (listed_urls_are_mapped_to_their_text "urls.txt").
  - left. split; [reflexivity|]. eexists. split; reflexivity.
  - repeat constructor; eexists; vm_compute; reflexivity.
Defined.

Lemma batch_errors_reach_the_caller_run :
  Web.get_text_from_urls_in_file "urls.pdf" []
  = (Web.Throw (Web.ValueError "Файл должен иметь расширение .txt, .csv, .xlsx или .json"),
     [])
  /\ Web.get_text_from_urls_in_file "none.xlsx" []
     = (Web.Throw (Web.FileNotFoundError "none.xlsx"),
        [Web.Line "Файл не найден: {e}" None (Some (Web.FileNotFoundError "none.xlsx"))]).
Proof.
  split.
  - apply (proj1 (batch_errors_reach_the_caller "urls.pdf" [])). reflexivity.
  - apply (proj2 (batch_errors_reach_the_caller "none.xlsx" []) "none.xlsx").
    right. right. left. split; reflexivity.
Defined.

Lemma blank_csv_rows_abort_the_batch_run :
  fst (Web.get_text_from_urls_in_file "urls.CSV" []) = Web.Throw Web.IndexError.
Proof.
  apply (blank_csv_rows_abort_the_batch "urls.CSV"
           [["https://shop.example/"; "x"]] [] None []);
    [reflexivity | reflexivity |].
  repeat constructor. eexists _, _, _. split; [reflexivity|]. vm_compute. reflexivity.
Defined.

Lemma requests_without_url_are_answered_400_run :
  Api.check_url (RefWeb.get_request "") (RefWeb.app taxonomy_tie)
  = (Web.Return (Api.Jsonify [("error", "Неверный или отсутствующий параметр URL")] 400),
     RefWeb.app taxonomy_tie)
  /\ Api.check_url
       {| Api.method := "POST"; Api.args := []; Api.form := [];
          Api.get_json := Web.Return (Some [("name", "x")]) |}
       (RefWeb.app taxonomy_tie)
     = (Web.Return (Api.Jsonify [("error", "Неверный или отсутствующий параметр URL")] 400),
        RefWeb.app taxonomy_tie)
  /\ Api.check_url
       {| Api.method := "POST"; Api.args := []; Api.form := [];
          Api.get_json := Web.Throw (Web.OtherError "415 Unsupported Media Type") |}
       (RefWeb.app taxonomy_tie)
     = (Web.Throw (Web.OtherError "415 Unsupported Media Type"),
        RefWeb.app taxonomy_tie).
Proof.
  split; [|split].
  - apply (proj1 (requests_without_url_are_answered_400 _ _)).
    left. split; reflexivity.
  - apply (proj1 (requests_without_url_are_answered_400 _ _)).
    right. right. split; [reflexivity|]. split; [reflexivity|].
    right. eexists. split; reflexivity.
  - apply (proj2 (requests_without_url_are_answered_400 _ _)); reflexivity.
Defined.


Lemma unreachable_pages_are_answered_with_the_error_object_run :
  fst (Web.get_title_and_meta "https://nowhere.example/" []) = Web.Return " "
  /\ fst (Api.check_url (RefWeb.get_request "https://nowhere.example/")
            (RefWeb.app taxonomy_tie))
     = Web.Return (Api.Response (DumpsStr false error_reply) 200).
Proof.
  apply (unreachable_pages_are_answered_with_the_error_object
           (RefWeb.get_request "https://nowhere.example/") (RefWeb.app taxonomy_tie)
           "h" "ttps://nowhere.example/" (Web.RequestException "connection failed") []);
    first [reflexivity | left; reflexivity].
Defined.

End MoreRuns.
